(** * updown: a shallow embedding of the HTTP handlers of updown (main.go, full variant)

    The Go program serves a directory listing ([handleRootGet]), downloads
    ([handleDownloadGet]) and single-file uploads ([handleUploadPost]) behind a
    method router ([routeByMethod]).  The library functions the handlers rely on
    (package [path], [filepath.Abs], [os], [net/http]'s [ResponseWriter],
    [http.Error], [http.Redirect], [mime/multipart]) are modelled below with the
    behaviour of Go 1.20; the handlers themselves follow the source line by line. *)

From Stdlib Require Import String Ascii List Bool ZArith Lia.
From stdpp Require Import base gmap strings list.
Import ListNotations.
Open Scope string_scope.

(** ** Go's [path] package *)
Module GoPath.

(** Character helpers. *)
Definition slash : ascii := "/".

Definition starts_with_slash (s : string) : bool :=
  match s with
  | String c _ => Ascii.eqb c slash
  | EmptyString => false
  end.

(** [split s]: the pieces of [s] between slashes (Go's [strings.Split(s, "/")]). *)
Definition cons_head (c : ascii) (l : list string) : list string :=
  match l with
  | x :: r => String c x :: r
  | [] => [String c EmptyString]
  end.

Fixpoint split (s : string) : list string :=
  match s with
  | EmptyString => [EmptyString]
  | String c s' =>
      if Ascii.eqb c slash then EmptyString :: split s' else cons_head c (split s')
  end.

(** One step of [path.Clean]'s lexical processing on a stack of output
    elements (most recent first): empty elements and [.] are dropped, [..]
    removes the previous element, or is kept at the start of a relative path,
    or is dropped at the root of a rooted path. *)
Definition clean_push (rooted : bool) (st : list string) (seg : string) : list string :=
  if (seg =? "") || (seg =? ".") then st
  else if seg =? ".." then
    match st with
    | [] => if rooted then [] else [".."]
    | x :: st' => if negb rooted && (x =? "..") then ".." :: st else st'
    end
  else seg :: st.

Definition clean_stack (rooted : bool) (start : list string) (s : string) : list string :=
  fold_left (clean_push rooted) (split s) start.

(** [path.Clean]: the shortest lexically equivalent path. *)
Definition Clean (s : string) : string :=
  if s =? "" then "."
  else
    let rooted := starts_with_slash s in
    let body := String.concat "/" (rev (clean_stack rooted [] s)) in
    if rooted then "/" ++ body
    else if body =? "" then "." else body.

(** [path.Join(a, b)]: empty elements are ignored; the result is cleaned;
    the join of two empty elements is the empty string. *)
Definition Join (a b : string) : string :=
  if (a =? "") && (b =? "") then ""
  else if a =? "" then Clean b
  else Clean (a ++ "/" ++ b).

(** [path.Base]: the last element after trailing slashes are removed;
    [.] for the empty path and [/] for a path of slashes only.  Stripping the
    trailing slashes and cutting at the last slash yields the last non-empty
    piece of [split]. *)
Fixpoint last_nonempty (l : list string) : option string :=
  match l with
  | [] => None
  | x :: r =>
      match last_nonempty r with
      | Some y => Some y
      | None => if x =? "" then None else Some x
      end
  end.

Definition Base (s : string) : string :=
  if s =? "" then "."
  else match last_nonempty (split s) with
       | Some x => x
       | None => "/"
       end.

End GoPath.

Import GoPath.

(** ** Sorting by name

    [os.ReadDir] returns the entries sorted by file name and
    [url.Values.Encode] sorts the keys; both are byte-wise string orders. *)
Section SortBy.
Context {A : Type} (key : A -> string).

Fixpoint insert_by (x : A) (l : list A) : list A :=
  match l with
  | [] => [x]
  | y :: r => if (key x <=? key y)%string then x :: l else y :: insert_by x r
  end.

Definition sort_by (l : list A) : list A := fold_right insert_by [] l.
End SortBy.

(** ** The file system

    A file system maps canonical absolute paths, given as their list of
    elements, to nodes; the root is [[]].  The operating system resolves a
    relative path against the working directory of the process. *)
Inductive node := NFile (contents : string) | NDir.

Abbreviation fsys := (gmap (list string) node).

(** The process-wide configuration: the [-s] and [-o] flags, the working
    directory of the process, and whether [os.Getwd] succeeds. *)
Record env := mkEnv {
  serveDir : string;
  outputDir : string;
  cwd : list string;
  getwd_ok : bool
}.

(** The element list a path names once the kernel has resolved it. *)
Definition resolve (wd : list string) (p : string) : list string :=
  rev (clean_stack true (if starts_with_slash p then [] else rev wd) p).

Definition goerror := string.

(** [os.Getwd] and [filepath.Abs] (Unix): an absolute path is cleaned, a
    relative one is joined to the working directory. *)
Definition getwd (e : env) : goerror + string :=
  if getwd_ok e then inr ("/" ++ String.concat "/" (cwd e)) else inl "getwd: no such file or directory".

Definition filepathAbs (e : env) (p : string) : goerror + string :=
  if starts_with_slash p then inr (Clean p)
  else match getwd e with
       | inl err => inl err
       | inr wd => inr (Join wd p)
       end.

(** [fs.DirEntry] as the listing handler uses it. *)
Record dirEntry := mkDirEntry { de_name : string; de_isDir : bool }.

Definition child_entry (k : list string) (kv : list string * node) : option dirEntry :=
  let '(k', n) := kv in
  match k' with
  | [] => None
  | _ :: _ =>
      if decide (removelast k' = k)
      then Some (mkDirEntry (List.last k' "") (match n with NDir => true | NFile _ => false end))
      else None
  end.

(** The entries of the directory [k], sorted by name as [os.ReadDir] does. *)
Definition children (fs : fsys) (k : list string) : list dirEntry :=
  sort_by de_name (omap (child_entry k) (map_to_list fs)).

(** ** URLs: [url.QueryEscape], [url.Values.Encode] and [addQueryToPath] *)
Definition nl : string := String (ascii_of_nat 10) EmptyString.
Definition dq : string := String (ascii_of_nat 34) EmptyString.

Definition hexdig (n : nat) : ascii :=
  ascii_of_nat (if Nat.ltb n 10 then 48 + n else 55 + n).

Definition unreserved (c : ascii) : bool :=
  let n := nat_of_ascii c in
  (Nat.leb 48 n && Nat.leb n 57) || (Nat.leb 65 n && Nat.leb n 90) ||
  (Nat.leb 97 n && Nat.leb n 122) ||
  Ascii.eqb c "-" || Ascii.eqb c "_" || Ascii.eqb c "." || Ascii.eqb c "~".

Fixpoint queryEscape (s : string) : string :=
  match s with
  | EmptyString => EmptyString
  | String c r =>
      if unreserved c then String c (queryEscape r)
      else if Ascii.eqb c " " then String "+" (queryEscape r)
      else String "%" (String (hexdig (nat_of_ascii c / 16))
                        (String (hexdig (nat_of_ascii c mod 16)) (queryEscape r)))
  end.

(** [url.Values.Encode] of a query whose keys have one value each. *)
Definition encodeQuery (q : gmap string string) : string :=
  String.concat "&"
    (map (fun kv => queryEscape kv.1 ++ "=" ++ queryEscape kv.2)
         (sort_by fst (map_to_list q))).

(** [url.Parse] refuses a URL holding an ASCII control character; the
    callers only pass the literals [/] and [/download], which are plain
    paths without query, so the parsed URL has that path and no query. *)
Fixpoint has_ctl (s : string) : bool :=
  match s with
  | EmptyString => false
  | String c r => Nat.ltb (nat_of_ascii c) 32 || Nat.eqb (nat_of_ascii c) 127 || has_ctl r
  end.

Definition addQueryToPath (urlPath : string) (query : gmap string string) : goerror + string :=
  if has_ctl urlPath then inl "net/url: invalid control character in URL"
  else
    let rawQuery := encodeQuery query in
    inr (if rawQuery =? "" then urlPath else urlPath ++ "?" ++ rawQuery).

(** ** [http.ResponseWriter]

    A handler's use of the writer is recorded as a list of calls; [wire]
    gives the response Go sends for them: the first [WriteHeader] fixes the
    status and the headers (a later one is superfluous and ignored), the first
    [Write] implicitly sends status 200, and a handler that wrote nothing
    answers 200 with an empty body. *)
Record fileEntry := mkFileEntry { fe_URL : string; fe_Name : string; fe_Type : string }.

(** A piece of the body: bytes, or the output of [tmplRoot.Execute] for
    the given [FullPath] and [Files]. *)
Inductive chunk := Bytes (b : string) | Page (fullPath : string) (files : list fileEntry).

Inductive wop :=
| HdrAdd (k v : string)   (* w.Header().Add *)
| HdrSet (k v : string)   (* w.Header().Set *)
| WriteHeader (code : Z)
| Write (c : chunk).

Abbreviation header := (gmap string (list string)).

Record wire := mkWire { status : Z; headers : header; body : list chunk }.

Record rwstate := mkRW { rw_hdr : header; rw_sent : option (Z * header); rw_body : list chunk }.

Definition header_add (h : header) (k v : string) : header :=
  <[k := (default [] (h !! k) ++ [v])%list]> h.

Definition rw_step (s : rwstate) (o : wop) : rwstate :=
  match o with
  | HdrAdd k v => mkRW (header_add (rw_hdr s) k v) (rw_sent s) (rw_body s)
  | HdrSet k v => mkRW (<[k := [v]]> (rw_hdr s)) (rw_sent s) (rw_body s)
  | WriteHeader code =>
      match rw_sent s with
      | None => mkRW (rw_hdr s) (Some (code, rw_hdr s)) (rw_body s)
      | Some _ => s
      end
  | Write c =>
      let sent := match rw_sent s with None => Some (200%Z, rw_hdr s) | Some x => Some x end in
      mkRW (rw_hdr s) sent (rw_body s ++ [c])%list
  end.

Definition finish (s : rwstate) : wire :=
  match rw_sent s with
  | Some (code, h) => mkWire code h (rw_body s)
  | None => mkWire 200 (rw_hdr s) (rw_body s)
  end.

Definition wire_of (ops : list wop) : wire :=
  finish (fold_left rw_step ops (mkRW ∅ None [])).

(** ** The world a request runs in, and the handler monad *)
Inductive fsop := FsReadDir (p : string) | FsOpen (p : string) | FsCreate (p : string).

Inductive logmsg :=
| LogMultipartError (err : goerror)
| LogReceive (fileName outputPath : string).

Record world := mkWorld {
  w_fs : fsys;
  w_fsops : list fsop;   (* the paths handed to the [os] package, in order *)
  w_ops : list wop;      (* the calls on the response writer, in order *)
  w_log : list logmsg
}.

(** A computation either returns or panics (a nil pointer dereference). *)
Inductive res (A : Type) := Ok (a : A) | Panicked.
Arguments Ok {A} a.
Arguments Panicked {A}.

Definition M (A : Type) : Type := world -> res A * world.

Definition mret {A} (a : A) : M A := fun w => (Ok a, w).
Definition mbind {A B} (m : M A) (k : A -> M B) : M B :=
  fun w => match m w with
           | (Ok a, w') => k a w'
           | (Panicked, w') => (Panicked, w')
           end.
Definition panic {A} : M A := fun w => (Panicked, w).

Notation "x <- m ;; k" := (mbind m (fun x => k))
  (at level 100, m at next level, right associativity).
Notation "m ;;; k" := (mbind m (fun _ => k))
  (at level 100, right associativity).

Definition get_world : M world := fun w => (Ok w, w).
Definition emit (o : wop) : M unit :=
  fun w => (Ok tt, mkWorld (w_fs w) (w_fsops w) (w_ops w ++ [o])%list (w_log w)).
Definition record_fsop (o : fsop) : M unit :=
  fun w => (Ok tt, mkWorld (w_fs w) (w_fsops w ++ [o])%list (w_ops w) (w_log w)).
Definition logm (l : logmsg) : M unit :=
  fun w => (Ok tt, mkWorld (w_fs w) (w_fsops w) (w_ops w) (w_log w ++ [l])%list).
Definition set_node (k : list string) (n : node) : M unit :=
  fun w => (Ok tt, mkWorld (<[k := n]> (w_fs w)) (w_fsops w) (w_ops w) (w_log w)).

(** ** The [os] calls *)
Definition osReadDir (e : env) (p : string) : M (goerror + list dirEntry) :=
  record_fsop (FsReadDir p) ;;;
  w <- get_world ;;
  let k := resolve (cwd e) p in
  mret (match w_fs w !! k with
        | Some NDir => inr (children (w_fs w) k)
        | Some (NFile _) => inl "readdirent: not a directory"
        | None => inl "open: no such file or directory"
        end).

(** [os.Open]: the opened file is the node found. *)
Definition osOpen (e : env) (p : string) : M (goerror + node) :=
  record_fsop (FsOpen p) ;;;
  w <- get_world ;;
  mret (match w_fs w !! resolve (cwd e) p with
        | Some n => inr n
        | None => inl "open: no such file or directory"
        end).

(** [os.Create]: truncates or creates a regular file in an existing
    directory; a directory cannot be opened for writing. *)
Definition osCreate (e : env) (p : string) : M (goerror + list string) :=
  record_fsop (FsCreate p) ;;;
  w <- get_world ;;
  let k := resolve (cwd e) p in
  match w_fs w !! k with
  | Some NDir => mret (inl "open: is a directory")
  | _ =>
      match w_fs w !! removelast k with
      | Some NDir =>
          match k with
          | [] => mret (inl "open: is a directory")
          | _ => set_node k (NFile "") ;;; mret (inr k)
          end
      | _ => mret (inl "open: no such file or directory")
      end
  end.

(** [io.Copy(w, file)] from an opened file to the response: a regular file
    is written out (no [Write] call for an empty one); reading a directory
    fails before any byte is written. *)
Definition copyToResponse (file : node) : M (option goerror) :=
  match file with
  | NFile c => (if c =? "" then mret tt else emit (Write (Bytes c))) ;;; mret None
  | NDir => mret (Some "read: is a directory")
  end.

(** ** [net/http] helpers *)
Definition httpError (msg : string) (code : Z) : M unit :=
  emit (HdrSet "Content-Type" "text/plain; charset=utf-8") ;;;
  emit (HdrSet "X-Content-Type-Options" "nosniff") ;;;
  emit (WriteHeader code) ;;;
  emit (Write (Bytes (msg ++ nl))).   (* fmt.Fprintln(w, error) *)

Definition notFound : M unit := httpError "404 page not found" 404.

(** [http.Redirect(w, r, url, http.StatusFound)] for a path-absolute, clean
    [url] on a response without a Content-Type header. *)
Definition redirectFound (method url : string) : M unit :=
  emit (HdrSet "Location" url) ;;;
  (if (method =? "GET") || (method =? "HEAD")
   then emit (HdrSet "Content-Type" "text/html; charset=utf-8") else mret tt) ;;;
  emit (WriteHeader 302) ;;;
  (if method =? "GET"
   then emit (Write (Bytes ("<a href=" ++ dq ++ url ++ dq ++ ">Found</a>." ++ nl ++ nl)))
   else mret tt).

(** ** Requests and multipart bodies *)

(** A part as [multipart.Reader.NextPart] yields it: [FormName()],
    [FileName()] (the library already keeps only the base of the declared
    file name), the bytes its body yields, and the error reading it ends with
    ([None]: a clean end). *)
Record part := mkPart {
  formName : string;
  fileName : string;
  p_body : string;
  p_err : option goerror
}.

(** The successive results of [NextPart]: the parts, then [io.EOF]
    ([mp_tail = None]; this includes errors that wrap [io.EOF], which
    [errors.Is] cannot tell apart) or another error ([Some err]). *)
Record mpbody := mkMP { mp_parts : list part; mp_tail : option goerror }.

Record request := mkReq {
  rq_method : string;
  rq_path : string;
  rq_query : gmap string (list string);   (* r.URL.Query() *)
  rq_multipart : goerror + mpbody          (* r.MultipartReader() *)
}.

(** ** The handlers (src/unnamed/part_000) *)

Definition getQueryValueOrDefault (query : gmap string (list string)) (key fallback : string) : string :=
  match query !! key with
  | None | Some [] => fallback
  | Some (value :: _) => if value =? "" then fallback else value
  end.

(** The loop over the directory entries of [handleRootGet]. *)
Fixpoint listing_loop (servePathRoot : string) (entries : list dirEntry) (fileEntries : list fileEntry)
  : goerror + list fileEntry :=
  match entries with
  | [] => inr fileEntries
  | entry :: rest =>
      let '(res, entryType, fileName) :=
        if de_isDir entry
        then (addQueryToPath "/" {["p" := Join servePathRoot (de_name entry)]},
              "<DIR>", de_name entry ++ "/")
        else (addQueryToPath "/download" {["p" := Join servePathRoot (de_name entry)]},
              "", de_name entry) in
      match res with
      | inl err => inl err
      | inr entryURL =>
          listing_loop servePathRoot rest
            (fileEntries ++ [mkFileEntry entryURL fileName entryType])%list
      end
  end.

(** [tmplRoot.Execute(w, tmplData)]: the template only fails when writing
    to the client fails, which is not modelled. *)
Definition tmplExecute (fullPath : string) (files : list fileEntry) : M unit :=
  emit (Write (Page fullPath files)).

Definition handleRootGet (e : env) (r : request) : M unit :=
  if rq_path r =? "/" then
    let servePathRoot := getQueryValueOrDefault (rq_query r) "p" "." in
    match filepathAbs e (Join (serveDir e) servePathRoot) with
    | inl _ => httpError "" 500
    | inr fullPath =>
        entries <- osReadDir e fullPath ;;
        match entries with
        | inl _ => httpError "" 500
        | inr entries =>
            match addQueryToPath "/" {["p" := Join servePathRoot ".."]} with
            | inl _ => httpError "" 500
            | inr entryURL =>
                match listing_loop servePathRoot entries [mkFileEntry entryURL "../" "<DIR>"] with
                | inl _ => httpError "" 500
                | inr fileEntries => tmplExecute fullPath fileEntries
                end
            end
        end
    end
  else notFound.

Definition attachment (name : string) : string :=
  "attachment; filename=" ++ dq ++ name ++ dq.

(** The header keys are in the canonical form [Header.Add] gives them. *)
Definition handleDownloadGet (e : env) (r : request) : M unit :=
  let inputPath := getQueryValueOrDefault (rq_query r) "p" "." in
  let fsPath := Join (serveDir e) inputPath in
  file <- osOpen e fsPath ;;
  match file with
  | inl _ => httpError "" 500
  | inr file =>
      emit (HdrAdd "Content-Type" "application/octet-stream") ;;;
      emit (HdrAdd "Content-Disposition" (attachment (Base fsPath))) ;;;
      err <- copyToResponse file ;;
      match err with
      | Some _ => httpError "" 500
      | None => emit (WriteHeader 204)
      end
  end.

(** [io.Copy(file, part)] into the created file [k]: the bytes read are
    appended, then the read error, if any, is returned. *)
Definition copyToFile (k : list string) (p : part) : M (option goerror) :=
  w <- get_world ;;
  let old := match w_fs w !! k with Some (NFile c) => c | _ => "" end in
  set_node k (NFile (old ++ p_body p)) ;;;
  mret (p_err p).

(** [readPart]: [part] is the pointer [NextPart] returned ([None] is nil,
    and [part.FormName()] dereferences it).  The deferred [part.Close()]
    logs nothing: [Part.Close] always returns nil.  Closing the created file
    is not modelled to fail. *)
Definition readPart (e : env) (part : option part) : M (bool * option goerror) :=
  match part with
  | None => panic
  | Some part =>
      if negb (formName part =? "file") then mret (false, None)
      else
        let fileName' := Base (fileName part) in
        let outputPath := Join (outputDir e) fileName' in
        logm (LogReceive (fileName part) outputPath) ;;;
        file <- osCreate e outputPath ;;
        match file with
        | inl err => mret (false, Some err)
        | inr file =>
            err <- copyToFile file part ;;
            match err with
            | Some err => mret (false, Some err)
            | None => mret (true, None)
            end
        end
  end.

(** One turn of the loop of [handleUploadPost] after [NextPart] returned
    [part] and no [io.EOF]: [true] means the loop was left by [break]. *)
Definition loop_step (e : env) (part : option part) (continue : M bool) : M bool :=
  res <- readPart e part ;;
  let '(ok, err) := res in
  match err with
  | Some _ => httpError "" 400 ;;; mret false
  | None => if ok then mret true else continue
  end.

(** After an error other than [io.EOF] the part is nil and [readPart]
    panics, so the continuation given there is never run. *)
Fixpoint upload_loop (e : env) (parts : list part) (tail : option goerror) : M bool :=
  match parts with
  | p :: rest => loop_step e (Some p) (upload_loop e rest tail)
  | [] =>
      match tail with
      | None => httpError "" 400 ;;; mret false
      | Some _ => loop_step e None (mret false)
      end
  end.

Definition handleUploadPost (e : env) (r : request) : M unit :=
  match rq_multipart r with
  | inl err =>
      httpError "Unable to read multipart form data" 400 ;;;
      logm (LogMultipartError err)
  | inr reader =>
      broke <- upload_loop e (mp_parts reader) (mp_tail reader) ;;
      if broke then redirectFound (rq_method r) "/" else mret tt
  end.

(** ** The router and the mux (main) *)
Abbreviation handler := (request -> M unit).

Record ByMethod := mkByMethod { bm_Get : option handler; bm_Post : option handler }.

Definition routeByMethod (byMethod : ByMethod) : handler :=
  fun r =>
    if rq_method r =? "GET" then
      match bm_Get byMethod with
      | Some h => h r
      | None => emit (WriteHeader 405)
      end
    else if rq_method r =? "POST" then
      match bm_Post byMethod with
      | Some h => h r
      | None => emit (WriteHeader 405)
      end
    else emit (WriteHeader 405).

(** [http.ServeMux] with the patterns [/], [/upload] and [/download]; the
    request path is taken to be clean (the mux's redirect of unclean paths
    is not modelled). *)
Definition mux (e : env) : handler :=
  fun r =>
    if rq_path r =? "/upload" then routeByMethod (mkByMethod None (Some (handleUploadPost e))) r
    else if rq_path r =? "/download" then routeByMethod (mkByMethod (Some (handleDownloadGet e)) None) r
    else routeByMethod (mkByMethod (Some (handleRootGet e)) None) r.

(** Running a handler on a file system. *)
Definition run (h : M unit) (fs : fsys) : res unit * world :=
  h (mkWorld fs [] [] []).

Definition response_of (o : res unit * world) : option wire :=
  match o with
  | (Ok _, w) => Some (wire_of (w_ops w))
  | (Panicked, _) => None
  end.

(** ** Following a link: [url.ParseRequestURI] and [url.ParseQuery]

    How the server reads back a URL the listing generated, when a browser
    follows it with a GET. *)

(** [strings.Cut(s, sep)]: the text before the first [sep], the text
    after it, and whether it was found. *)
Fixpoint cut (sep : ascii) (s : string) : string * string * bool :=
  match s with
  | EmptyString => (EmptyString, EmptyString, false)
  | String c r =>
      if Ascii.eqb c sep then (EmptyString, r, true)
      else let '(b, a, f) := cut sep r in (String c b, a, f)
  end.

(** [strings.Contains(s, string(c))]. *)
Fixpoint contains (c : ascii) (s : string) : bool :=
  match s with
  | EmptyString => false
  | String d r => Ascii.eqb c d || contains c r
  end.

Definition ishex (c : ascii) : bool :=
  let n := nat_of_ascii c in
  (Nat.leb 48 n && Nat.leb n 57) || (Nat.leb 97 n && Nat.leb n 102) ||
  (Nat.leb 65 n && Nat.leb n 70).

Definition unhex (c : ascii) : nat :=
  let n := nat_of_ascii c in
  if Nat.leb 48 n && Nat.leb n 57 then n - 48
  else if Nat.leb 97 n && Nat.leb n 102 then n - 87
  else if Nat.leb 65 n && Nat.leb n 70 then n - 55
  else 0.

(** [url.QueryUnescape]: [%XX] is the byte [XX], [+] is a space; a [%]
    not followed by two hexadecimal digits makes the whole value an error. *)
Fixpoint unescape (s : string) : option string :=
  match s with
  | EmptyString => Some EmptyString
  | String c r =>
      if Ascii.eqb c "%" then
        match r with
        | String a (String b r') =>
            if ishex a && ishex b
            then option_map (String (ascii_of_nat (unhex a * 16 + unhex b))) (unescape r')
            else None
        | _ => None
        end
      else if Ascii.eqb c "+" then option_map (String " ") (unescape r)
      else option_map (String c) (unescape r)
  end.

(** The loop of [url.parseQuery]: each turn consumes at least one byte of
    [query], so [length query + 1] turns finish it.  A pair with a [;], an
    empty pair and a pair that does not unescape are skipped (the error they
    give is dropped by [URL.Query]). *)
Fixpoint parseQuery_loop (fuel : nat) (m : gmap string (list string)) (query : string)
  : gmap string (list string) :=
  match fuel with
  | O => m
  | S fuel' =>
      if query =? "" then m
      else
        let '(key, query', _) := cut "&" query in
        if contains ";" key then parseQuery_loop fuel' m query'
        else if key =? "" then parseQuery_loop fuel' m query'
        else
          let '(k, value, _) := cut "=" key in
          match unescape k with
          | None => parseQuery_loop fuel' m query'
          | Some k =>
              match unescape value with
              | None => parseQuery_loop fuel' m query'
              | Some value => parseQuery_loop fuel' (<[k := (default [] (m !! k) ++ [value])%list]> m) query'
              end
          end
  end.

(** [r.URL.Query()]. *)
Definition parseQuery (query : string) : gmap string (list string) :=
  parseQuery_loop (S (String.length query)) ∅ query.

(** The request a browser sends when it follows the link [uri] with a GET:
    [url.ParseRequestURI] cuts the query at the first [?] (the link's path
    holds no escape, so it is its own unescaping), and a GET without a body
    has no multipart reader. *)
Definition requestOfURI (uri : string) : request :=
  let '(path, rawQuery, _) := cut "?" uri in
  mkReq "GET" path (parseQuery rawQuery) (inl "request Content-Type isn't multipart/form-data").

(** ** The minimal server (src/main.go)

    The same router and upload loop; the root page is a fixed template,
    the upload discards the file's bytes, and there is no [/download]. *)
Module MainGo.

Definition tab : string := String (ascii_of_nat 9) EmptyString.

(** The text of [tmplRoot]; it has no actions, so [Execute(w, nil)]
    writes it unchanged. *)
Definition tmplRoot : string :=
  String.concat nl
    [""; "<!DOCTYPE html>";
     "<html lang=" ++ dq ++ "en" ++ dq ++ ">";
     tab ++ "<head>";
     tab ++ tab ++ "<meta charset=" ++ dq ++ "utf-8" ++ dq ++ ">";
     tab ++ tab ++ "<title>Updown</title>";
     tab ++ "</head>";
     tab ++ "<body>";
     tab ++ tab ++ "<h1>Updown</h1>";
     tab ++ tab ++ "<p>Welcome to updown.</p>";
     tab ++ tab ++ "<form method=" ++ dq ++ "post" ++ dq ++ " action=" ++ dq ++ "/upload" ++ dq ++
       " enctype=" ++ dq ++ "multipart/form-data" ++ dq ++ ">";
     tab ++ tab ++ tab ++ "<input type=" ++ dq ++ "file" ++ dq ++ " name=" ++ dq ++ "file" ++ dq ++ ">";
     tab ++ tab ++ tab ++ "<button type=" ++ dq ++ "submit" ++ dq ++ ">Upload</button>";
     tab ++ tab ++ "</form>";
     tab ++ "</body>";
     "</html>"; ""].

Definition handleRootGet (r : request) : M unit :=
  if rq_path r =? "/" then emit (Write (Bytes tmplRoot)) else notFound.

(** [readPart] of main.go: [io.Copy(io.Discard, part)] reads the whole
    part and returns the error reading it ends with. *)
Definition readPart (part : option part) : M (bool * option goerror) :=
  match part with
  | None => panic
  | Some part =>
      if negb (formName part =? "file") then mret (false, None)
      else
        match p_err part with
        | Some err => mret (false, Some err)
        | None => mret (true, None)
        end
  end.

Definition loop_step (part : option part) (continue : M bool) : M bool :=
  res <- readPart part ;;
  let '(ok, err) := res in
  match err with
  | Some _ => httpError "" 400 ;;; mret false
  | None => if ok then mret true else continue
  end.

Fixpoint upload_loop (parts : list part) (tail : option goerror) : M bool :=
  match parts with
  | p :: rest => loop_step (Some p) (upload_loop rest tail)
  | [] =>
      match tail with
      | None => httpError "" 400 ;;; mret false
      | Some _ => loop_step None (mret false)
      end
  end.

Definition handleUploadPost (r : request) : M unit :=
  match rq_multipart r with
  | inl err =>
      httpError "Unable to read multipart form data" 400 ;;;
      logm (LogMultipartError err)
  | inr reader =>
      broke <- upload_loop (mp_parts reader) (mp_tail reader) ;;
      if broke then redirectFound (rq_method r) "/" else mret tt
  end.

(** [main]: an [http.ServeMux] with the patterns [/] and [/upload]; as for
    the full server, the request path is taken to be clean (the mux's
    redirect of unclean paths is not modelled). *)
Definition mux : handler :=
  fun r =>
    if rq_path r =? "/upload" then routeByMethod (mkByMethod None (Some handleUploadPost)) r
    else routeByMethod (mkByMethod (Some handleRootGet) None) r.

End MainGo.


(** ** Auxiliary definitions for the proofs *)
Module Defs.

Definition nosl (y : string) : Prop := split y = [y].

(** The elements [path.Clean] keeps on its stack. *)
Definition valid (st : list string) : Prop :=
  Forall (fun y => y <> "" /\ y <> "." /\ nosl y) st.

Definition normal (y : string) : Prop := y <> "" /\ y <> "." /\ y <> "..".

(** The calls [http.Error] makes. *)
Definition error_ops (msg : string) (code : Z) : list wop :=
  [HdrSet "Content-Type" "text/plain; charset=utf-8";
   HdrSet "X-Content-Type-Options" "nosniff";
   WriteHeader code;
   Write (Bytes (msg ++ nl))].

Definition hdr_op (o : wop) : bool :=
  match o with HdrAdd _ _ | HdrSet _ _ => true | _ => false end.

(** The entries of a listing as the spec describes them. *)
Definition spec_parent_entry (p : string) : fileEntry :=
  mkFileEntry ("/?p=" ++ queryEscape (Join p "..")) "../" "<DIR>".

Definition spec_child_entry (p : string) (de : dirEntry) : fileEntry :=
  if de_isDir de
  then mkFileEntry ("/?p=" ++ queryEscape (Join p (de_name de))) (de_name de ++ "/") "<DIR>"
  else mkFileEntry ("/download?p=" ++ queryEscape (Join p (de_name de))) (de_name de) "".

(** The working directory is a canonical path. *)
Definition canonical (wd : list string) : Prop := Forall normal wd /\ Forall nosl wd.

(** The calls [handleDownloadGet] makes on the writer, by the node found. *)
Definition download_ops (fsPath : string) (n : option node) : list wop :=
  match n with
  | None => error_ops "" 500
  | Some (NFile c) =>
      [HdrAdd "Content-Type" "application/octet-stream";
       HdrAdd "Content-Disposition" (attachment (Base fsPath))] ++
      (if c =? "" then [] else [Write (Bytes c)]) ++ [WriteHeader 204]
  | Some NDir =>
      [HdrAdd "Content-Type" "application/octet-stream";
       HdrAdd "Content-Disposition" (attachment (Base fsPath))] ++ error_ops "" 500
  end%list.

(** The result of [handleRootGet], written out. *)
Definition root_outcome (e : env) (r : request) (fs : fsys) : res unit * world :=
  let np := getQueryValueOrDefault (rq_query r) "p" "." in
  if rq_path r =? "/" then
    match filepathAbs e (Join (serveDir e) np) with
    | inl _ => (Ok tt, mkWorld fs [] (error_ops "" 500) [])
    | inr full =>
        match fs !! resolve (cwd e) full with
        | Some NDir =>
            (Ok tt, mkWorld fs [FsReadDir full]
               [Write (Page full (spec_parent_entry np ::
                                  map (spec_child_entry np) (children fs (resolve (cwd e) full))))] [])
        | _ => (Ok tt, mkWorld fs [FsReadDir full] (error_ops "" 500) [])
        end
    end
  else (Ok tt, mkWorld fs [] (error_ops "404 page not found" 404) []).

(** A part the loop skips. *)
Definition not_file (q : part) : Prop := formName q <> "file".

(** Whether [os.Create] succeeds on the file [k]. *)
Definition create_ok (fs : fsys) (k : list string) : bool :=
  match fs !! k with
  | Some NDir => false
  | _ =>
      match fs !! removelast k with
      | Some NDir => match k with [] => false | _ => true end
      | _ => false
      end
  end.

Definition upload_target (e : env) (p : part) : string :=
  Join (outputDir e) (Base (fileName p)).

(** The calls [http.Redirect] makes for a POST request. *)
Definition redirect_post_ops : list wop := [HdrSet "Location" "/"; WriteHeader 302].

(** Computations that make no call on the response writer. *)
Definition ops_pure {A} (m : M A) : Prop :=
  forall w x w', m w = (x, w') -> w_ops w' = w_ops w.

Global Instance node_eq_dec : EqDecision node.
Proof. solve_decision. Defined.

(** A server started in [/home] with [-s /srv -o /srv]. *)
Definition ex_env : env := mkEnv "/srv" "/srv" ["home"] true.

Definition ex_fs : fsys :=
  <[["srv"; "sub"] := NDir]> (<[["srv"; "b.txt"] := NFile "hi"]>
    (<[["srv"] := NDir]> (<[["home"] := NDir]> (<[[] := NDir]> ∅)))).

Definition ex_upload (parts : list part) (tail : option goerror) : request :=
  mkReq "POST" "/upload" ∅ (inr (mkMP parts tail)).

Definition ex_get (path p : string) : request :=
  mkReq "GET" path {["p" := [p]]} (inl "request Content-Type isn't multipart/form-data").

(** The handler the spec says serves a method. *)
Definition spec_handler_for (bm : ByMethod) (method : string) : option handler :=
  if method =? "GET" then bm_Get bm else if method =? "POST" then bm_Post bm else None.

(** The navigation path as the spec describes it. *)
Definition spec_nav (q : gmap string (list string)) : string :=
  match q !! "p" with
  | Some (v :: _) => if v =? "" then "." else v
  | _ => "."
  end.


(** The first part named ["file"], the one the upload loop stores. *)
Fixpoint first_file (parts : list part) : option part :=
  match parts with
  | [] => None
  | q :: rest => if formName q =? "file" then Some q else first_file rest
  end.

(** Every path the file system holds is canonical. *)
Definition fs_canonical (fs : fsys) : Prop := map_Forall (fun k _ => canonical k) fs.

(** Computations that leave the file system alone and make no [os] call. *)
Definition fs_pure {A} (m : M A) : Prop :=
  forall w x w', m w = (x, w') -> w_fs w' = w_fs w /\ w_fsops w' = w_fsops w.


End Defs.

(** ** Facts about the [path] model *)
Module PathFacts.
Import Defs.

Example clean_ex1 : Clean "a//b/./../c/" = "a/c". Proof. reflexivity. Qed.
Example clean_ex2 : Clean "/../x/.." = "/". Proof. reflexivity. Qed.
Example clean_ex3 : Clean "a/../../b" = "../b". Proof. reflexivity. Qed.
Example join_ex1 : Join "." ".." = "..". Proof. reflexivity. Qed.
Example join_ex2 : Join "srv" "sub/x.txt" = "srv/sub/x.txt". Proof. reflexivity. Qed.
Example join_ex3 : Join "/out" "" = "/out". Proof. reflexivity. Qed.
Example base_ex1 : Base "a/b//" = "b". Proof. reflexivity. Qed.
Example base_ex2 : Base "///" = "/". Proof. reflexivity. Qed.
Example base_ex3 : Base "" = ".". Proof. reflexivity. Qed.

Lemma split_not_nil (s : string) : split s <> [].
Proof.
  destruct s as [|c s]; simpl; [discriminate|].
  destruct (Ascii.eqb c slash); [discriminate|].
  unfold cons_head. destruct (split s); discriminate.
Qed.

Lemma split_app (a c : string) : split (a ++ String slash c) = (split a ++ split c)%list.
Proof.
  induction a as [|x a IH]; simpl.
  - reflexivity.
  - rewrite IH. destruct (Ascii.eqb x slash); [reflexivity|].
    unfold cons_head. destruct (split a) eqn:E; [now destruct (split_not_nil a)|].
    reflexivity.
Qed.

Lemma split_nosl (s : string) : Forall nosl (split s).
Proof.
  induction s as [|c s IH]; simpl.
  - constructor; [reflexivity|constructor].
  - destruct (Ascii.eqb c slash) eqn:Ec.
    + constructor; [reflexivity|exact IH].
    + unfold cons_head. destruct (split s) as [|x r] eqn:E.
      * constructor; [unfold nosl; simpl; now rewrite Ec|constructor].
      * inversion IH as [|? ? Hx Hr]; subst.
        constructor; [|exact Hr].
        unfold nosl in *. simpl. rewrite Ec, Hx. reflexivity.
Qed.

Lemma nosl_no_slash_head (y : string) (c : ascii) (t : string) :
  nosl y -> y = String c t -> Ascii.eqb c slash = false.
Proof.
  intros H ->. unfold nosl in H. simpl in H.
  destruct (Ascii.eqb c slash); [|reflexivity].
  inversion H.
Qed.

Lemma split_concat (l : list string) :
  Forall nosl l -> l <> [] -> split (String.concat "/" l) = l.
Proof.
  induction l as [|y l IH]; intros Hl Hne; [congruence|].
  inversion Hl as [|? ? Hy Hr]; subst.
  destruct l as [|z l].
  - simpl. exact Hy.
  - change (String.concat "/" (y :: z :: l)) with (y ++ String slash (String.concat "/" (z :: l))).
    rewrite split_app, Hy, IH by (auto; discriminate). reflexivity.
Qed.

Lemma clean_push_valid (b : bool) (st : list string) (x : string) :
  valid st -> nosl x -> valid (clean_push b st x).
Proof.
  intros Hst Hx. unfold clean_push.
  destruct (x =? "") eqn:E1; [exact Hst|].
  destruct (x =? ".") eqn:E2; [exact Hst|]. simpl.
  apply String.eqb_neq in E1, E2.
  destruct (x =? "..") eqn:E3.
  - destruct st as [|y st'].
    + destruct b; repeat constructor; discriminate.
    + destruct (negb b && (y =? "..")).
    * constructor; [repeat split; discriminate|exact Hst].
    * now inversion Hst.
  - constructor; [auto|exact Hst].
Qed.

Lemma fold_valid (b : bool) (l : list string) (st : list string) :
  valid st -> Forall nosl l -> valid (fold_left (clean_push b) l st).
Proof.
  revert st. induction l as [|x l IH]; intros st Hst Hl; simpl; [exact Hst|].
  inversion Hl; subst. apply IH; [apply clean_push_valid|]; auto.
Qed.

Lemma clean_stack_valid (b : bool) (s : string) : valid (clean_stack b [] s).
Proof. apply fold_valid; [constructor|apply split_nosl]. Qed.

Lemma cp_skip (b : bool) (st : list string) (x : string) :
  x = "" \/ x = "." -> clean_push b st x = st.
Proof. intros [-> | ->]; reflexivity. Qed.

Lemma cp_name (b : bool) (st : list string) (x : string) :
  x <> "" -> x <> "." -> x <> ".." -> clean_push b st x = x :: st.
Proof.
  intros H1 H2 H3. unfold clean_push.
  apply String.eqb_neq in H1, H2, H3. rewrite H1, H2, H3. reflexivity.
Qed.

Lemma cp_dotdot_true (st : list string) : clean_push true st ".." = tl st.
Proof. destruct st; reflexivity. Qed.

Lemma cp_dotdot_false (st : list string) :
  clean_push false st ".." =
  match st with [] => [".."] | y :: t => if y =? ".." then ".." :: st else t end.
Proof. destruct st; reflexivity. Qed.

Lemma string_cases (x : string) : x = "" \/ x = "." \/ x = ".." \/ (x <> "" /\ x <> "." /\ x <> "..").
Proof.
  destruct (String.eqb_spec x ""); [auto|].
  destruct (String.eqb_spec x "."); [auto|].
  destruct (String.eqb_spec x ".."); [auto|].
  right; right; right; auto.
Qed.

(** Replaying a relative stack on top of a rooted one. *)
Lemma apply_step (r S : list string) (x : string) :
  valid r ->
  fold_left (clean_push true) (rev (clean_push false r x)) S =
  clean_push true (fold_left (clean_push true) (rev r) S) x.
Proof.
  intros Hr.
  destruct (string_cases x) as [-> | [-> | [-> | [H1 [H2 H3]]]]].
  - reflexivity.
  - reflexivity.
  - rewrite cp_dotdot_false, cp_dotdot_true.
    destruct r as [|y r']; [reflexivity|].
    destruct (String.eqb_spec y "..") as [->|Hy].
    + simpl. rewrite !fold_left_app. simpl. rewrite cp_dotdot_true. reflexivity.
    + inversion Hr as [|? ? [Hy1 [Hy2 _]] _]; subst.
      simpl. rewrite fold_left_app. simpl.
      rewrite cp_name by assumption. reflexivity.
  - rewrite !cp_name by assumption. simpl.
    rewrite fold_left_app. simpl. rewrite cp_name by assumption. reflexivity.
Qed.

Lemma apply_fold (l r S : list string) :
  valid r -> Forall nosl l ->
  fold_left (clean_push true) l (fold_left (clean_push true) (rev r) S) =
  fold_left (clean_push true) (rev (fold_left (clean_push false) l r)) S.
Proof.
  revert r. induction l as [|x l IH]; intros r Hr Hl; simpl; [reflexivity|].
  inversion Hl; subst.
  rewrite <- apply_step by exact Hr.
  apply IH; [apply clean_push_valid|]; auto.
Qed.

Lemma push_names (b : bool) (l S : list string) :
  Forall normal l -> fold_left (clean_push b) l S = (rev l ++ S)%list.
Proof.
  revert S. induction l as [|x l IH]; intros S Hl; simpl; [reflexivity|].
  inversion Hl as [|? ? [H1 [H2 H3]] Hr]; subst.
  rewrite cp_name by assumption. rewrite IH by exact Hr.
  rewrite <- app_assoc. reflexivity.
Qed.

Lemma fold_true_no_dotdot (l S : list string) :
  Forall (fun y => y <> "..") S ->
  Forall (fun y => y <> "..") (fold_left (clean_push true) l S).
Proof.
  revert S. induction l as [|x l IH]; intros S HS; simpl; [exact HS|].
  apply IH.
  destruct (string_cases x) as [-> | [-> | [-> | [H1 [H2 H3]]]]]; simpl; auto.
  - destruct S; simpl; [constructor|now inversion HS].
  - rewrite cp_name by assumption. constructor; assumption.
Qed.

Lemma rooted_stack_normal (s : string) : Forall normal (clean_stack true [] s).
Proof.
  pose proof (clean_stack_valid true s) as Hv.
  pose proof (fold_true_no_dotdot (split s) [] ltac:(constructor)) as Hd.
  unfold clean_stack in *.
  induction (fold_left (clean_push true) (split s) []) as [|y l IH]; [constructor|].
  inversion Hv as [|? ? [H1 [H2 _]] Hv']; inversion Hd; subst.
  constructor; [repeat split; assumption|auto].
Qed.

Lemma sw_app (a b : string) :
  a <> "" -> starts_with_slash (a ++ b) = starts_with_slash a.
Proof. destruct a; [congruence|reflexivity]. Qed.

Lemma concat_cons (y : string) (l : list string) :
  String.concat "/" (y :: l) =
  match l with [] => y | _ => y ++ String slash (String.concat "/" l) end.
Proof. destruct l; reflexivity. Qed.

Lemma concat_valid_nonempty (l : list string) :
  valid l -> l <> [] ->
  String.concat "/" l <> "" /\ starts_with_slash (String.concat "/" l) = false.
Proof.
  intros Hv Hne. destruct l as [|y l]; [congruence|].
  inversion Hv as [|? ? [H1 [_ H3]] _]; subst.
  rewrite concat_cons.
  destruct y as [|c t]; [congruence|].
  pose proof (nosl_no_slash_head _ c t H3 eq_refl) as Hc.
  destruct l; simpl; split; try discriminate; exact Hc.
Qed.

Lemma valid_rev (l : list string) : valid l -> valid (rev l).
Proof. unfold valid. intros H. apply Forall_rev. exact H. Qed.

Lemma valid_nosl (l : list string) : valid l -> Forall nosl l.
Proof. unfold valid. intros H. eapply Forall_impl; [exact H|]. intros y [_ [_ Hy]]. exact Hy. Qed.

(** Resolving a cleaned path gives the same file as the path itself. *)
Lemma resolve_clean (wd : list string) (x : string) :
  resolve wd (Clean x) = resolve wd x.
Proof.
  unfold Clean.
  destruct (String.eqb_spec x "") as [->|Hx]; [reflexivity|].
  destruct (starts_with_slash x) eqn:Er.
  - pose proof (rooted_stack_normal x) as Hn.
    pose proof (clean_stack_valid true x) as Hv.
    unfold resolve. simpl.
    unfold clean_stack at 1. simpl.
    destruct (rev (clean_stack true [] x)) as [|y l] eqn:Est.
    + simpl. apply (f_equal (@rev string)) in Est. rewrite rev_involutive in Est.
      rewrite Er, Est. reflexivity.
    + rewrite <- Est. change (("" ++ ?z)%string) with z. rewrite split_concat.
      * rewrite push_names by (apply Forall_rev; exact Hn).
        rewrite Er, app_nil_r, rev_involutive. reflexivity.
      * apply valid_nosl, valid_rev, Hv.
      * rewrite Est. discriminate.
  - pose proof (clean_stack_valid false x) as Hv.
    pose proof (apply_fold (split x) [] (rev wd) ltac:(constructor) (split_nosl x)) as Hap.
    simpl in Hap.
    unfold resolve. rewrite Er.
    assert (Hrhs : clean_stack true (rev wd) x =
                   fold_left (clean_push true) (rev (clean_stack false [] x)) (rev wd))
      by exact Hap.
    rewrite Hrhs.
    destruct (rev (clean_stack false [] x)) as [|y l] eqn:Est.
    + reflexivity.
    + destruct (concat_valid_nonempty (y :: l)) as [Hne Hsw];
        [rewrite <- Est; apply valid_rev, Hv|discriminate|].
      apply String.eqb_neq in Hne. rewrite Hne.
      rewrite Hsw. unfold clean_stack. rewrite split_concat.
      * reflexivity.
      * rewrite <- Est. apply valid_nosl, valid_rev, Hv.
      * discriminate.
Qed.

Lemma resolve_app (wd : list string) (d y : string) :
  d <> "" ->
  resolve wd (d ++ String slash y) =
  rev (fold_left (clean_push true) (split y) (rev (resolve wd d))).
Proof.
  intros Hd. unfold resolve. rewrite sw_app by exact Hd.
  unfold clean_stack. rewrite split_app, fold_left_app, rev_involutive. reflexivity.
Qed.

Lemma Join_nonempty (d b : string) : d <> "" -> Join d b = Clean (d ++ String slash b).
Proof.
  intros Hd. unfold Join. apply String.eqb_neq in Hd. rewrite Hd. reflexivity.
Qed.

Lemma Join_empty_l (b : string) : Join "" b = if b =? "" then "" else Clean b.
Proof. unfold Join. destruct (b =? ""); reflexivity. Qed.

Lemma removelast_rev (l : list string) : removelast l = rev (tl (rev l)).
Proof.
  induction l as [|x l _] using rev_ind; [reflexivity|].
  rewrite removelast_last, rev_app_distr. simpl. rewrite rev_involutive. reflexivity.
Qed.

Lemma resolve_join_dot (wd : list string) (d : string) :
  resolve wd (Join d ".") = resolve wd d.
Proof.
  destruct (String.eqb_spec d "") as [->|Hd]; [reflexivity|].
  rewrite Join_nonempty, resolve_clean, resolve_app by exact Hd.
  simpl. apply rev_involutive.
Qed.

Lemma resolve_join_slash (wd : list string) (d : string) :
  resolve wd (Join d "/") = if d =? "" then [] else resolve wd d.
Proof.
  destruct (String.eqb_spec d "") as [->|Hd]; [reflexivity|].
  rewrite Join_nonempty, resolve_clean, resolve_app by exact Hd.
  simpl. apply rev_involutive.
Qed.

Lemma resolve_join_dotdot (wd : list string) (d : string) :
  resolve wd (Join d "..") = removelast (resolve wd d).
Proof.
  destruct (String.eqb_spec d "") as [->|Hd].
  - rewrite Join_empty_l. simpl. rewrite resolve_clean, removelast_rev.
    unfold resolve, clean_stack. simpl. rewrite cp_dotdot_true, rev_involutive. reflexivity.
  - rewrite Join_nonempty, resolve_clean, resolve_app by exact Hd.
    simpl. rewrite cp_dotdot_true, removelast_rev. reflexivity.
Qed.

Lemma last_nonempty_app (l : list string) (b : string) :
  b <> "" -> last_nonempty (l ++ [b]) = Some b.
Proof.
  intros Hb. induction l as [|x l IH]; simpl.
  - apply String.eqb_neq in Hb. rewrite Hb. reflexivity.
  - rewrite IH. reflexivity.
Qed.

Lemma last_nonempty_some (l : list string) (y : string) :
  last_nonempty l = Some y -> In y l /\ y <> "".
Proof.
  induction l as [|x l IH]; simpl; [discriminate|].
  destruct (last_nonempty l) as [z|].
  - intros [= <-]. destruct (IH eq_refl). split; [right|]; assumption.
  - destruct (String.eqb_spec x "") as [_|Hx]; [discriminate|].
    intros [= <-]. split; [left; reflexivity|exact Hx].
Qed.

Lemma Base_split (s : string) (l : list string) (b : string) :
  s <> "" -> split s = (l ++ [b])%list -> b <> "" -> Base s = b.
Proof.
  intros Hs Hsp Hb. unfold Base. apply String.eqb_neq in Hs. rewrite Hs, Hsp.
  rewrite last_nonempty_app by exact Hb. reflexivity.
Qed.

(** What [path.Base] can return. *)
Lemma Base_cases (s : string) :
  Base s = "." \/ Base s = "/" \/ (Base s <> "" /\ nosl (Base s)).
Proof.
  unfold Base. destruct (s =? ""); [auto|].
  destruct (last_nonempty (split s)) as [y|] eqn:E; [|auto].
  destruct (last_nonempty_some _ _ E) as [Hin Hy].
  right; right. split; [exact Hy|].
  pose proof (split_nosl s) as Hall. rewrite Forall_forall in Hall. apply Hall.
  apply list_elem_of_In. exact Hin.
Qed.

Lemma Base_clean_last (y : string) (l : list string) (b : string) :
  y <> "" -> split y = (l ++ [b])%list -> normal b -> Base (Clean y) = b.
Proof.
  intros Hy Hsp [Hb1 [Hb2 Hb3]].
  assert (Hl : Forall nosl l /\ nosl b).
  { pose proof (split_nosl y) as Hall. rewrite Hsp in Hall.
    apply Forall_app in Hall. destruct Hall as [H1 H2]. inversion H2. auto. }
  destruct Hl as [Hl Hbn].
  unfold Clean. apply String.eqb_neq in Hy. rewrite Hy.
  set (r := starts_with_slash y).
  assert (Hst : clean_stack r [] y = b :: fold_left (clean_push r) l []).
  { unfold clean_stack. rewrite Hsp, fold_left_app. simpl. apply cp_name; assumption. }
  rewrite Hst.
  assert (Hv : valid (fold_left (clean_push r) l [])) by (apply fold_valid; [constructor|exact Hl]).
  simpl.
  assert (Hvv : valid (rev (fold_left (clean_push r) l []) ++ [b])%list).
  { apply Forall_app; split; [apply valid_rev, Hv|]. repeat constructor; assumption. }
  destruct (concat_valid_nonempty _ Hvv) as [Hne _]; [destruct (rev _); discriminate|].
  assert (Hspc : split (String.concat "/" (rev (fold_left (clean_push r) l []) ++ [b])) =
                 (rev (fold_left (clean_push r) l []) ++ [b])%list).
  { apply split_concat; [apply valid_nosl, Hvv|destruct (rev _); discriminate]. }
  destruct r.
  - apply (Base_split _ ("" :: rev (fold_left (clean_push true) l []))); [discriminate| |exact Hb1].
    change (("/" ++ ?z)%string) with (String slash z). cbn [split]. rewrite Hspc. reflexivity.
  - apply String.eqb_neq in Hne. rewrite Hne.
    apply (Base_split _ (rev (fold_left (clean_push false) l []))); [|exact Hspc|exact Hb1].
    apply String.eqb_neq. exact Hne.
Qed.

(** The base of [path.Join(d, b)] is [b] for a plain file name [b]. *)
Lemma Base_Join (d b : string) : normal b -> nosl b -> Base (Join d b) = b.
Proof.
  intros Hb Hbn.
  destruct (String.eqb_spec d "") as [->|Hd].
  - rewrite Join_empty_l. destruct Hb as [Hb1 Hb']. 
    apply String.eqb_neq in Hb1 as Hb1'. rewrite Hb1'.
    apply (Base_clean_last b []); [exact Hb1|exact Hbn|split; assumption].
  - rewrite Join_nonempty by exact Hd.
    apply (Base_clean_last _ (split d)); [|rewrite split_app, Hbn; reflexivity|exact Hb].
    destruct d; [congruence|discriminate].
Qed.

End PathFacts.

(** ** Facts about the handlers *)
Module HandlerFacts.
Import Defs PathFacts.

Example addq_ex :
  addQueryToPath "/" {["p" := "a b/c"]} = inr "/?p=a+b%2Fc".
Proof. reflexivity. Qed.

Lemma httpError_run (msg : string) (code : Z) (w : world) :
  httpError msg code w =
  (Ok tt, mkWorld (w_fs w) (w_fsops w) (w_ops w ++ error_ops msg code)%list (w_log w)).
Proof.
  destruct w as [fs fo ops lg]. unfold httpError, mbind, emit. simpl.
  rewrite <- !app_assoc. reflexivity.
Qed.

Lemma hdr_ops_state (pre : list wop) (s : rwstate) :
  forallb hdr_op pre = true ->
  rw_sent (fold_left rw_step pre s) = rw_sent s /\ rw_body (fold_left rw_step pre s) = rw_body s.
Proof.
  revert s. induction pre as [|o pre IH]; intros s H; simpl; [auto|].
  simpl in H. apply andb_true_iff in H as [Ho H].
  destruct o as [k v|k v| |]; try discriminate.
  - destruct (IH (rw_step s (HdrAdd k v)) H) as [H1 H2]. rewrite H1, H2. auto.
  - destruct (IH (rw_step s (HdrSet k v)) H) as [H1 H2]. rewrite H1, H2. auto.
Qed.

(** Headers set before [http.Error] do not change its status and body. *)
Lemma wire_error (pre : list wop) (msg : string) (code : Z) :
  forallb hdr_op pre = true ->
  status (wire_of (pre ++ error_ops msg code)) = code /\
  body (wire_of (pre ++ error_ops msg code)) = [Bytes (msg ++ nl)].
Proof.
  intros H. unfold wire_of. rewrite fold_left_app.
  destruct (hdr_ops_state pre (mkRW ∅ None []) H) as [H1 H2].
  destruct (fold_left rw_step pre (mkRW ∅ None [])) as [h sent b].
  simpl in H1, H2. subst. simpl. auto.
Qed.

Lemma has_ctl_slash : has_ctl "/" = false.
Proof. reflexivity. Qed.

Lemma has_ctl_download : has_ctl "/download" = false.
Proof. reflexivity. Qed.

Lemma addQueryToPath_p (path v : string) :
  has_ctl path = false ->
  addQueryToPath path {["p" := v]} = inr (path ++ "?p=" ++ queryEscape v).
Proof.
  intros H. unfold addQueryToPath, encodeQuery. rewrite H.
  rewrite map_to_list_singleton. reflexivity.
Qed.

Lemma listing_loop_map (p : string) (es : list dirEntry) (acc : list fileEntry) :
  listing_loop p es acc = inr (acc ++ map (spec_child_entry p) es)%list.
Proof.
  revert acc. induction es as [|de es IH]; intros acc; simpl.
  - rewrite app_nil_r. reflexivity.
  - unfold spec_child_entry. destruct (de_isDir de).
    + rewrite addQueryToPath_p by reflexivity. rewrite IH, <- app_assoc. reflexivity.
    + rewrite addQueryToPath_p by reflexivity. rewrite IH, <- app_assoc. reflexivity.
Qed.

Lemma resolve_getwd (wd : list string) :
  canonical wd -> resolve wd ("/" ++ String.concat "/" wd) = wd.
Proof.
  intros [Hn Hs]. unfold resolve, clean_stack.
  change (("/" ++ ?z)%string) with (String slash z). cbn [split starts_with_slash].
  rewrite Ascii.eqb_refl. cbn [fold_left].
  change (clean_push true [] "") with (@nil string).
  destruct wd as [|y l] eqn:E; [reflexivity|].
  rewrite <- E in *. rewrite split_concat; [|exact Hs|subst; discriminate].
  rewrite push_names by exact Hn. rewrite app_nil_r, rev_involutive. reflexivity.
Qed.

(** [filepath.Abs] names the file the relative path names. *)
Lemma filepathAbs_resolve (e : env) (p full : string) :
  canonical (cwd e) -> filepathAbs e p = inr full ->
  resolve (cwd e) full = resolve (cwd e) p.
Proof.
  intros Hc H. unfold filepathAbs in H.
  destruct (starts_with_slash p) eqn:Er.
  - injection H as <-. apply resolve_clean.
  - unfold getwd in H. destruct (getwd_ok e); [|discriminate].
    injection H as <-.
    assert (Hne : ("/" ++ String.concat "/" (cwd e))%string <> "") by discriminate.
    rewrite Join_nonempty by exact Hne.
    rewrite resolve_clean, resolve_app by exact Hne.
    rewrite resolve_getwd by exact Hc.
    unfold resolve, clean_stack. rewrite Er. reflexivity.
Qed.

Lemma download_run (e : env) (r : request) (fs : fsys) :
  let fsPath := Join (serveDir e) (getQueryValueOrDefault (rq_query r) "p" ".") in
  run (handleDownloadGet e r) fs =
  (Ok tt, mkWorld fs [FsOpen fsPath] (download_ops fsPath (fs !! resolve (cwd e) fsPath)) []).
Proof.
  cbv zeta. unfold run, handleDownloadGet, mbind, osOpen, record_fsop, get_world, mret. cbn -[Join Base resolve].
  destruct (fs !! resolve (cwd e) _) as [[c|]|].
  - unfold emit, copyToResponse, mbind, mret. cbn -[Join Base].
    destruct (c =? "") eqn:Ec; reflexivity.
  - unfold emit, copyToResponse, mbind, mret. cbn -[Join Base httpError].
    rewrite httpError_run. reflexivity.
  - rewrite httpError_run. reflexivity.
Qed.

Lemma root_run (e : env) (r : request) (fs : fsys) :
  run (handleRootGet e r) fs = root_outcome e r fs.
Proof.
  unfold run, handleRootGet, root_outcome.
  destruct (rq_path r =? "/"); [|apply httpError_run].
  destruct (filepathAbs e _) as [err|full]; [apply httpError_run|].
  unfold mbind, osReadDir, record_fsop, get_world, mret. cbn -[resolve children httpError addQueryToPath listing_loop].
  destruct (fs !! resolve (cwd e) full) as [[c|]|].
  - apply httpError_run.
  - rewrite addQueryToPath_p by reflexivity. rewrite listing_loop_map. reflexivity.
  - apply httpError_run.
Qed.

Lemma loop_skip (e : env) (pre rest : list part) (tail : option goerror) (w : world) :
  Forall not_file pre ->
  upload_loop e (pre ++ rest) tail w = upload_loop e rest tail w.
Proof.
  intros Hpre. induction Hpre as [|q pre Hq _ IH]; [reflexivity|].
  simpl. unfold loop_step, mbind, readPart.
  apply String.eqb_neq in Hq. rewrite Hq. simpl. exact IH.
Qed.

Lemma loop_step_file (e : env) (p : part) (cont : M bool) (fs : fsys) (fo : list fsop) (lg : list logmsg) :
  formName p = "file" ->
  let op := upload_target e p in
  let k := resolve (cwd e) op in
  let fo' := (fo ++ [FsCreate op])%list in
  let lg' := (lg ++ [LogReceive (fileName p) op])%list in
  loop_step e (Some p) cont (mkWorld fs fo [] lg) =
  if create_ok fs k then
    match p_err p with
    | None => (Ok true, mkWorld (<[k := NFile (p_body p)]> fs) fo' [] lg')
    | Some _ => (Ok false, mkWorld (<[k := NFile (p_body p)]> fs) fo' (error_ops "" 400) lg')
    end
  else (Ok false, mkWorld fs fo' (error_ops "" 400) lg').
Proof.
  intros Hp. cbv zeta. unfold upload_target.
  unfold loop_step, mbind, readPart. rewrite Hp. simpl negb. cbv iota.
  unfold logm, osCreate, record_fsop, get_world, mbind, mret, create_ok.
  cbn -[resolve Join Base httpError].
  destruct (fs !! resolve (cwd e) _) as [[c|]|] eqn:Ek.
  all: try (rewrite httpError_run; reflexivity).
  all: destruct (fs !! removelast (resolve (cwd e) _)) as [[c'|]|] eqn:Ep;
       try (rewrite httpError_run; reflexivity).
  all: destruct (resolve (cwd e) _) as [|x k'] eqn:Er; try (rewrite httpError_run; reflexivity).
  all: unfold set_node, copyToFile, get_world, mbind, mret; cbn -[resolve Join Base httpError].
  all: rewrite lookup_insert_eq; cbn -[resolve Join Base httpError];
       rewrite insert_insert_eq; destruct (p_err p); try (rewrite httpError_run); reflexivity.
Qed.

(** [handleUploadPost] on a body whose first ["file"] part is [p]. *)
Lemma upload_run_file (e : env) (r : request) (fs : fsys) (pre post : list part) (p : part)
    (tail : option goerror) :
  rq_method r = "POST" ->
  rq_multipart r = inr (mkMP (pre ++ p :: post) tail) ->
  Forall not_file pre -> formName p = "file" ->
  let op := upload_target e p in
  let k := resolve (cwd e) op in
  run (handleUploadPost e r) fs =
  if create_ok fs k then
    match p_err p with
    | None => (Ok tt, mkWorld (<[k := NFile (p_body p)]> fs) [FsCreate op] redirect_post_ops
                              [LogReceive (fileName p) op])
    | Some _ => (Ok tt, mkWorld (<[k := NFile (p_body p)]> fs) [FsCreate op] (error_ops "" 400)
                                [LogReceive (fileName p) op])
    end
  else (Ok tt, mkWorld fs [FsCreate op] (error_ops "" 400) [LogReceive (fileName p) op]).
Proof.
  intros Hm Hmp Hpre Hp. cbv zeta.
  unfold run, handleUploadPost. rewrite Hmp. unfold mbind at 1. cbn [mp_parts mp_tail].
  rewrite loop_skip by exact Hpre. cbn [upload_loop].
  rewrite loop_step_file by exact Hp.
  destruct (create_ok fs _); [destruct (p_err p)|]; try reflexivity.
  unfold redirectFound, emit, mbind, mret. rewrite Hm. reflexivity.
Qed.

(** [handleUploadPost] on a body without a ["file"] part. *)
Lemma upload_run_nofile (e : env) (r : request) (fs : fsys) (parts : list part) :
  rq_multipart r = inr (mkMP parts None) ->
  Forall not_file parts ->
  run (handleUploadPost e r) fs = (Ok tt, mkWorld fs [] (error_ops "" 400) []).
Proof.
  intros Hmp Hparts.
  unfold run, handleUploadPost. rewrite Hmp. unfold mbind at 1. cbn [mp_parts mp_tail].
  rewrite <- (app_nil_r parts), loop_skip by exact Hparts. cbn [upload_loop].
  unfold mbind. rewrite httpError_run. reflexivity.
Qed.

Lemma mret_pure {A} (a : A) : ops_pure (mret a).
Proof. intros w x w' H. injection H as _ <-. reflexivity. Qed.

Lemma panic_pure {A} : ops_pure (@panic A).
Proof. intros w x w' H. injection H as _ <-. reflexivity. Qed.

Lemma mbind_pure {A B} (m : M A) (k : A -> M B) :
  ops_pure m -> (forall a, ops_pure (k a)) -> ops_pure (mbind m k).
Proof.
  intros Hm Hk w x w' H. unfold mbind in H.
  destruct (m w) as [[a|] w1] eqn:E.
  - rewrite (Hk a _ _ _ H). exact (Hm _ _ _ E).
  - injection H as _ <-. exact (Hm _ _ _ E).
Qed.

Lemma logm_pure (l : logmsg) : ops_pure (logm l).
Proof. intros w x w' H. injection H as _ <-. reflexivity. Qed.

Lemma record_fsop_pure (o : fsop) : ops_pure (record_fsop o).
Proof. intros w x w' H. injection H as _ <-. reflexivity. Qed.

Lemma get_world_pure : ops_pure get_world.
Proof. intros w x w' H. injection H as _ <-. reflexivity. Qed.

Lemma set_node_pure (k : list string) (n : node) : ops_pure (set_node k n).
Proof. intros w x w' H. injection H as _ <-. reflexivity. Qed.

Create HintDb pure.
#[local] Hint Resolve mret_pure panic_pure logm_pure record_fsop_pure get_world_pure
  set_node_pure : pure.

Ltac pure_step :=
  match goal with
  | |- ops_pure (mbind _ _) => apply mbind_pure; [|intros ?]
  | |- ops_pure (match ?x with _ => _ end) => destruct x
  | |- ops_pure (let '(_, _) := ?x in _) => destruct x
  | |- _ => solve [eauto with pure]
  end.

Lemma osCreate_pure (e : env) (p : string) : ops_pure (osCreate e p).
Proof. unfold osCreate. repeat pure_step. Qed.

Lemma copyToFile_pure (k : list string) (q : part) : ops_pure (copyToFile k q).
Proof. unfold copyToFile. repeat pure_step. Qed.

#[local] Hint Resolve osCreate_pure copyToFile_pure : pure.




Lemma error_ops_wire (msg : string) (code : Z) :
  status (wire_of (error_ops msg code)) = code /\ body (wire_of (error_ops msg code)) = [Bytes (msg ++ nl)].
Proof. exact (wire_error [] msg code eq_refl). Qed.

(** A successful upload went through [os.Create] on its target. *)
Lemma upload_302_create_ok (e : env) (r : request) (fs : fsys) (pre post : list part) (p : part)
    (tail : option goerror) :
  rq_method r = "POST" ->
  rq_multipart r = inr (mkMP (pre ++ p :: post) tail) ->
  Forall not_file pre -> formName p = "file" ->
  status (wire_of (w_ops (snd (run (handleUploadPost e r) fs)))) = 302%Z ->
  create_ok fs (resolve (cwd e) (upload_target e p)) = true /\ p_err p = None /\
  w_fs (snd (run (handleUploadPost e r) fs)) =
    <[resolve (cwd e) (upload_target e p) := NFile (p_body p)]> fs.
Proof.
  intros Hm Hmp Hpre Hp H302.
  rewrite (upload_run_file e r fs pre post p tail Hm Hmp Hpre Hp) in *. cbv zeta in *.
  destruct (create_ok fs _); [|cbn [snd w_ops] in H302; rewrite (proj1 (error_ops_wire _ _)) in H302; discriminate].
  destruct (p_err p); cbn [snd w_ops w_fs] in *; [rewrite (proj1 (error_ops_wire _ _)) in H302; discriminate|].
  auto.
Qed.

(** The base name of a successfully created upload target is a plain name,
    and the target's base is that name again. *)
Lemma upload_target_base (e : env) (fs : fsys) (p : part) :
  fs !! [] = Some NDir ->
  map_Forall (fun k _ => fs !! removelast k = Some NDir) fs ->
  fs !! resolve (cwd e) (outputDir e) = Some NDir ->
  create_ok fs (resolve (cwd e) (upload_target e p)) = true ->
  Base (upload_target e p) = Base (fileName p).
Proof.
  intros Hroot Hwf Hout Hok. unfold upload_target in *.
  set (b := Base (fileName p)) in *.
  unfold create_ok in Hok.
  pose proof (Base_cases (fileName p)) as Hc. fold b in Hc.
  destruct (String.eqb_spec b ".") as [Hb|Hb1].
  { rewrite Hb, resolve_join_dot, Hout in Hok. discriminate. }
  destruct (String.eqb_spec b "/") as [Hb|Hb2].
  { rewrite Hb, resolve_join_slash in Hok.
    destruct (outputDir e =? ""); [rewrite Hroot in Hok|rewrite Hout in Hok]; discriminate. }
  destruct (String.eqb_spec b "..") as [Hdd|Hdd].
  { rewrite Hdd, resolve_join_dotdot in Hok.
    rewrite (Hwf _ _ Hout) in Hok. discriminate. }
  destruct Hc as [Hc|[Hc|[Hne Hbn]]]; [contradiction|contradiction|].
  apply Base_Join; [|exact Hbn].
  split; [exact Hne|split; assumption].
Qed.

End HandlerFacts.

(** ** The claims *)
Module Claims.
Import Defs PathFacts HandlerFacts.

(** ** C1 *)

(** C1 (counterexample): a ["file"] field without a file name has base
    name [.]; the target is the output directory itself, [os.Create] fails,
    and the answer is 400, not 302. *)
Lemma C1_file_part_without_filename :
  let '(_, w) := run (handleUploadPost ex_env (ex_upload [mkPart "file" "" "hello" None] None)) ex_fs in
  status (wire_of (w_ops w)) = 400%Z /\ w_fs w !! ["srv"] = Some NDir.
Proof. vm_compute. split; reflexivity. Qed.

(** C1 (amended): for a POST whose multipart parts before the first
    ["file"] part [p] are other fields, the one file the handler tries to
    create is [path.Join(outputDir, path.Base(p.FileName()))].  If
    [os.Create] succeeds on it and the part's body reads without error, the
    file holds exactly the part's bytes, the parts after [p] are never looked
    at (the outcome does not depend on [post] or [tail]), and the answer is a
    302 to [/].  If [os.Create] fails or reading the body fails, the answer
    is 400. *)
Theorem C1_upload_first_file_part (e : env) (r : request) (fs : fsys)
    (pre post : list part) (p : part) (tail : option goerror) :
  rq_method r = "POST" ->
  rq_multipart r = inr (mkMP (pre ++ p :: post) tail) ->
  Forall not_file pre -> formName p = "file" ->
  let k := resolve (cwd e) (upload_target e p) in
  let o := run (handleUploadPost e r) fs in
  w_fsops (snd o) = [FsCreate (upload_target e p)] /\
  match create_ok fs k, p_err p with
  | true, None =>
      o = (Ok tt, mkWorld (<[k := NFile (p_body p)]> fs)
                          [FsCreate (upload_target e p)] redirect_post_ops
                          [LogReceive (fileName p) (upload_target e p)]) /\
      wire_of redirect_post_ops = mkWire 302 {["Location" := ["/"]]} []
  | _, _ => fst o = Ok tt /\ status (wire_of (w_ops (snd o))) = 400%Z
  end.
Proof.
  intros Hm Hmp Hpre Hp k o. unfold o.
  rewrite (upload_run_file e r fs pre post p tail Hm Hmp Hpre Hp). cbv zeta. fold k.
  destruct (create_ok fs k); [destruct (p_err p)|]; cbn [snd fst w_fsops w_ops];
    (split; [reflexivity|]).
  - split; [reflexivity|]. apply error_ops_wire.
  - split; reflexivity.
  - split; [reflexivity|]. apply error_ops_wire.
Qed.

Lemma C1_upload_first_file_part_witness :
  let p := mkPart "file" "h.txt" "hello" None in
  let r := ex_upload [mkPart "note" "" "x" None; p; mkPart "file" "other" "zz" None] None in
  let k := resolve (cwd ex_env) (upload_target ex_env p) in
  let o := run (handleUploadPost ex_env r) ex_fs in
  w_fsops (snd o) = [FsCreate (upload_target ex_env p)] /\
  match create_ok ex_fs k, p_err p with
  | true, None =>
      o = (Ok tt, mkWorld (<[k := NFile (p_body p)]> ex_fs)
                          [FsCreate (upload_target ex_env p)] redirect_post_ops
                          [LogReceive (fileName p) (upload_target ex_env p)]) /\
      wire_of redirect_post_ops = mkWire 302 {["Location" := ["/"]]} []
  | _, _ => fst o = Ok tt /\ status (wire_of (w_ops (snd o))) = 400%Z
  end.
Proof.
  apply (C1_upload_first_file_part ex_env _ ex_fs [mkPart "note" "" "x" None]
           [mkPart "file" "other" "zz" None] (mkPart "file" "h.txt" "hello" None) None);
    try reflexivity.
  repeat constructor. simpl. discriminate.
Defined.

(** ** C2 *)

(** C2: when [p] names a readable directory, the page lists first the
    parent entry [../] (type [<DIR>], URL [/?p=join(p, "..")]), then one
    entry per directory entry in the order [os.ReadDir] returns them:
    a directory [name] gives [name/], [<DIR>] and [/?p=join(p, name)],
    anything else gives [name], no type and [/download?p=join(p, name)]. *)
Theorem C2_listing_entries (e : env) (r : request) (fs : fsys) (fullPath : string) :
  rq_path r = "/" ->
  filepathAbs e (Join (serveDir e) (getQueryValueOrDefault (rq_query r) "p" ".")) = inr fullPath ->
  fs !! resolve (cwd e) fullPath = Some NDir ->
  let p := getQueryValueOrDefault (rq_query r) "p" "." in
  let files := spec_parent_entry p ::
               map (spec_child_entry p) (children fs (resolve (cwd e) fullPath)) in
  run (handleRootGet e r) fs =
    (Ok tt, mkWorld fs [FsReadDir fullPath] [Write (Page fullPath files)] []) /\
  wire_of [Write (Page fullPath files)] = mkWire 200 ∅ [Page fullPath files].
Proof.
  intros Hpath Habs Hdir. cbv zeta.
  rewrite root_run. unfold root_outcome. rewrite Hpath. simpl.
  rewrite Habs, Hdir. split; reflexivity.
Qed.

Lemma C2_listing_entries_witness :
  let r := mkReq "GET" "/" ∅ (inl "no body") in
  let p := getQueryValueOrDefault (rq_query r) "p" "." in
  let files := spec_parent_entry p ::
               map (spec_child_entry p) (children ex_fs (resolve (cwd ex_env) "/srv")) in
  run (handleRootGet ex_env r) ex_fs =
    (Ok tt, mkWorld ex_fs [FsReadDir "/srv"] [Write (Page "/srv" files)] []) /\
  wire_of [Write (Page "/srv" files)] = mkWire 200 ∅ [Page "/srv" files].
Proof.
  apply (C2_listing_entries ex_env (mkReq "GET" "/" ∅ (inl "no body")) ex_fs "/srv");
    vm_compute; reflexivity.
Defined.

(** The listing of [/srv] in the example file system. *)
Example listing_of_srv :
  map (spec_child_entry ".") (children ex_fs ["srv"]) =
  [mkFileEntry "/download?p=b.txt" "b.txt" ""; mkFileEntry "/?p=sub" "sub/" "<DIR>"].
Proof. vm_compute. reflexivity. Qed.

(** ** C3 *)

(** C3: with [-s] and [-o] naming the same directory of a well-formed file
    system, after a successful upload of the first ["file"] part [p], a
    download of [p=<base name of the client's file name>] returns exactly
    the uploaded bytes, with that base name as the attachment's file name. *)
Theorem C3_upload_download_roundtrip (e : env) (r r2 : request) (fs : fsys)
    (pre post : list part) (p : part) (tail : option goerror) :
  serveDir e = outputDir e ->
  fs !! [] = Some NDir ->
  map_Forall (fun k _ => fs !! removelast k = Some NDir) fs ->
  fs !! resolve (cwd e) (outputDir e) = Some NDir ->
  rq_method r = "POST" ->
  rq_multipart r = inr (mkMP (pre ++ p :: post) tail) ->
  Forall not_file pre -> formName p = "file" ->
  status (wire_of (w_ops (snd (run (handleUploadPost e r) fs)))) = 302%Z ->
  rq_query r2 = {["p" := [Base (fileName p)]]} ->
  let fs' := w_fs (snd (run (handleUploadPost e r) fs)) in
  let d := wire_of (w_ops (snd (run (handleDownloadGet e r2) fs'))) in
  body d = (if p_body p =? "" then [] else [Bytes (p_body p)]) /\
  headers d !! "Content-Disposition" = Some [attachment (Base (fileName p))].
Proof.
  intros Hsame Hroot Hwf Hout Hm Hmp Hpre Hp H302 Hq. cbv zeta.
  destruct (upload_302_create_ok e r fs pre post p tail Hm Hmp Hpre Hp H302) as [Hok [_ Hfs]].
  rewrite Hfs, download_run.
  assert (Hnav : getQueryValueOrDefault (rq_query r2) "p" "." = Base (fileName p)).
  { rewrite Hq. unfold getQueryValueOrDefault. rewrite lookup_singleton_eq.
    destruct (Base_cases (fileName p)) as [-> | [-> | [Hne _]]]; [reflexivity|reflexivity|].
    apply String.eqb_neq in Hne. rewrite Hne. reflexivity. }
  rewrite Hnav, Hsame.
  fold (upload_target e p). rewrite lookup_insert_eq.
  cbn [snd w_ops]. unfold download_ops.
  rewrite (upload_target_base e fs p Hroot Hwf Hout Hok).
  destruct (p_body p =? ""); split; reflexivity.
Qed.

Lemma C3_upload_download_roundtrip_witness :
  let r := ex_upload [mkPart "note" "" "x" None; mkPart "file" "h.txt" "hello" None] None in
  let r2 := ex_get "/download" "h.txt" in
  let fs' := w_fs (snd (run (handleUploadPost ex_env r) ex_fs)) in
  let d := wire_of (w_ops (snd (run (handleDownloadGet ex_env r2) fs'))) in
  body d = (if "hello" =? "" then [] else [Bytes "hello"]) /\
  headers d !! "Content-Disposition" = Some [attachment (Base "h.txt")].
Proof.
  apply (C3_upload_download_roundtrip ex_env _ _ ex_fs [mkPart "note" "" "x" None] []
           (mkPart "file" "h.txt" "hello" None) None);
    try reflexivity.
  - apply map_Forall_to_list. vm_compute. repeat constructor.
  - repeat constructor. simpl. discriminate.
Defined.

(** ** C4 *)



(** ** C5 *)

(** C5 (counterexample): a body with only a text field is answered 400,
    but the body of [http.Error(w, "", 400)] is a newline, not empty. *)
Lemma C5_no_file_part_body :
  body (wire_of (w_ops (snd (run (handleUploadPost ex_env (ex_upload [mkPart "note" "" "x" None] None)) ex_fs))))
  = [Bytes nl].
Proof. vm_compute. reflexivity. Qed.

(** C5 (amended): when the multipart body ends ([io.EOF]) without a part
    named ["file"], the answer is 400 with a body holding a single newline,
    the file system is unchanged, and no [os] call is made. *)
Theorem C5_no_file_part_400 (e : env) (r : request) (fs : fsys) (parts : list part) :
  rq_multipart r = inr (mkMP parts None) ->
  Forall not_file parts ->
  let '(o, w) := run (handleUploadPost e r) fs in
  o = Ok tt /\ w_fs w = fs /\ w_fsops w = [] /\
  status (wire_of (w_ops w)) = 400%Z /\ body (wire_of (w_ops w)) = [Bytes nl].
Proof.
  intros Hmp Hparts. rewrite (upload_run_nofile e r fs parts Hmp Hparts).
  destruct (error_ops_wire "" 400) as [H1 H2].
  cbn [w_fs w_fsops w_ops]. rewrite H1, H2. auto.
Qed.

Lemma C5_no_file_part_400_witness :
  let '(o, w) := run (handleUploadPost ex_env (ex_upload [mkPart "note" "" "x" None; mkPart "other" "a.txt" "y" None] None)) ex_fs in
  o = Ok tt /\ w_fs w = ex_fs /\ w_fsops w = [] /\
  status (wire_of (w_ops w)) = 400%Z /\ body (wire_of (w_ops w)) = [Bytes nl].
Proof.
  apply (C5_no_file_part_400 ex_env _ ex_fs [mkPart "note" "" "x" None; mkPart "other" "a.txt" "y" None]).
  - reflexivity.
  - repeat constructor; simpl; discriminate.
Defined.

(** ** C6 *)

(** C6 (counterexample): a download of a missing file is answered 500
    with a newline as its body. *)
Lemma C6_missing_file_body :
  let d := wire_of (w_ops (snd (run (handleDownloadGet ex_env (ex_get "/download" "missing.txt")) ex_fs))) in
  status d = 500%Z /\ body d = [Bytes nl].
Proof. vm_compute. split; reflexivity. Qed.

(** C6 (amended): [handleDownloadGet] opens [fsPath = path.Join(serveDir, p)]
    and nothing else.  If the open fails, or the path is a directory (the
    open succeeds, the copy fails), the answer is 500 with a newline as its
    body.  For a regular file the two headers are added, the whole content
    is written, and a [WriteHeader(204)] follows; it only takes effect
    when the file is empty. *)
Theorem C6_download_behaviour (e : env) (r : request) (fs : fsys) :
  let fsPath := Join (serveDir e) (getQueryValueOrDefault (rq_query r) "p" ".") in
  let w := snd (run (handleDownloadGet e r) fs) in
  let d := wire_of (w_ops w) in
  w_fsops w = [FsOpen fsPath] /\ w_fs w = fs /\
  match fs !! resolve (cwd e) fsPath with
  | Some (NFile c) =>
      w_ops w = ([HdrAdd "Content-Type" "application/octet-stream";
                  HdrAdd "Content-Disposition" (attachment (Base fsPath))] ++
                 (if c =? "" then [] else [Write (Bytes c)]) ++ [WriteHeader 204])%list /\
      status d = (if c =? "" then 204%Z else 200%Z) /\
      body d = (if c =? "" then [] else [Bytes c]) /\
      headers d !! "Content-Type" = Some ["application/octet-stream"] /\
      headers d !! "Content-Disposition" = Some [attachment (Base fsPath)]
  | _ => status d = 500%Z /\ body d = [Bytes nl]
  end.
Proof.
  cbv zeta. rewrite download_run. cbn [snd w_fsops w_fs w_ops].
  split; [reflexivity|split; [reflexivity|]].
  unfold download_ops.
  destruct (fs !! _) as [[c|]|].
  - destruct (c =? ""); repeat split; reflexivity.
  - exact (wire_error [HdrAdd "Content-Type" "application/octet-stream";
                       HdrAdd "Content-Disposition" (attachment (Base (Join (serveDir e)
                          (getQueryValueOrDefault (rq_query r) "p" "."))))] "" 500 eq_refl).
  - exact (error_ops_wire "" 500).
Qed.

(** ** C7 *)

(** C7: [routeByMethod] runs the handler the spec names for the method, or
    else answers 405 with an empty body and nothing else. *)
Theorem C7_route_by_method (bm : ByMethod) (r : request) (fs : fsys) :
  run (routeByMethod bm r) fs =
  match spec_handler_for bm (rq_method r) with
  | Some h => run (h r) fs
  | None => (Ok tt, mkWorld fs [] [WriteHeader 405] [])
  end /\
  wire_of [WriteHeader 405] = mkWire 405 ∅ [].
Proof.
  split; [|reflexivity].
  unfold routeByMethod, spec_handler_for.
  destruct (rq_method r =? "GET"); [destruct (bm_Get bm); reflexivity|].
  destruct (rq_method r =? "POST"); [destruct (bm_Post bm); reflexivity|].
  reflexivity.
Qed.

(** ** C8 *)

(** C8: the navigation path is the first value of [p], and [.] when [p] is
    absent, has no value, or its first value is empty; both the listing and
    the download use it. *)
Theorem C8_navigation_path (e : env) (r : request) (fs : fsys) :
  let np := spec_nav (rq_query r) in
  getQueryValueOrDefault (rq_query r) "p" "." = np /\
  w_fsops (snd (run (handleDownloadGet e r) fs)) = [FsOpen (Join (serveDir e) np)] /\
  w_fsops (snd (run (handleRootGet e r) fs)) =
    (if rq_path r =? "/" then
       match filepathAbs e (Join (serveDir e) np) with
       | inr full => [FsReadDir full]
       | inl _ => []
       end
     else []).
Proof.
  cbv zeta.
  assert (Hnp : getQueryValueOrDefault (rq_query r) "p" "." = spec_nav (rq_query r)).
  { unfold getQueryValueOrDefault, spec_nav.
    destruct (rq_query r !! "p") as [[|v vs]|]; reflexivity. }
  split; [exact Hnp|split].
  - rewrite download_run. rewrite Hnp. reflexivity.
  - rewrite root_run. unfold root_outcome. rewrite Hnp.
    destruct (rq_path r =? "/"); [|reflexivity].
    destruct (filepathAbs e _) as [err|full]; [reflexivity|].
    destruct (fs !! _) as [[c|]|]; reflexivity.
Qed.

(** ** C9 *)

(** C9: with the working directory a canonical path, the only [os] calls
    of a listing and of a download are on [path.Join(serveDir, np)]: the
    listing reads the directory [filepath.Abs] gives for it, which names the
    same file; the download opens the joined path itself. *)
Theorem C9_accessed_paths (e : env) (r : request) (fs : fsys) :
  canonical (cwd e) ->
  let jp := Join (serveDir e) (getQueryValueOrDefault (rq_query r) "p" ".") in
  (forall o, In o (w_fsops (snd (run (handleRootGet e r) fs))) ->
     exists full, o = FsReadDir full /\ filepathAbs e jp = inr full /\
                  resolve (cwd e) full = resolve (cwd e) jp) /\
  w_fsops (snd (run (handleDownloadGet e r) fs)) = [FsOpen jp].
Proof.
  intros Hc. cbv zeta. split.
  - intros o Ho. rewrite root_run in Ho. unfold root_outcome in Ho.
    destruct (rq_path r =? "/"); [|destruct Ho].
    destruct (filepathAbs e _) as [err|full] eqn:Ea; [destruct Ho|].
    assert (Hin : o = FsReadDir full).
    { destruct (fs !! _) as [[c|]|]; destruct Ho as [<-|[]]; reflexivity. }
    exists full. split; [exact Hin|split; [reflexivity|]].
    exact (filepathAbs_resolve e _ full Hc Ea).
  - rewrite download_run. reflexivity.
Qed.

Lemma C9_accessed_paths_witness :
  let jp := Join (serveDir ex_env) (getQueryValueOrDefault (rq_query (ex_get "/" "sub")) "p" ".") in
  canonical (cwd ex_env) /\
  ((forall o, In o (w_fsops (snd (run (handleRootGet ex_env (ex_get "/" "sub")) ex_fs))) ->
     exists full, o = FsReadDir full /\ filepathAbs ex_env jp = inr full /\
                  resolve (cwd ex_env) full = resolve (cwd ex_env) jp) /\
   w_fsops (snd (run (handleDownloadGet ex_env (ex_get "/" "sub")) ex_fs)) = [FsOpen jp]).
Proof.
  assert (Hc : canonical (cwd ex_env)).
  { split; repeat constructor; cbv; try discriminate; reflexivity. }
  split; [exact Hc|].
  exact (C9_accessed_paths ex_env (ex_get "/" "sub") ex_fs Hc).
Defined.

(** ** C10 *)

(** C10 (code bug): when [NextPart] fails with an error other than
    [io.EOF] before a ["file"] part was stored, the part is nil,
    [readPart] dereferences it and the handler panics instead of answering
    400. *)
Theorem C10_next_part_error_panics (e : env) (r : request) (fs : fsys)
    (parts : list part) (err : goerror) :
  rq_path r = "/upload" -> rq_method r = "POST" ->
  rq_multipart r = inr (mkMP parts (Some err)) ->
  Forall not_file parts ->
  fst (run (mux e r) fs) = Panicked.
Proof.
  intros Hp Hm Hmp Hparts. unfold mux. rewrite Hp, String.eqb_refl.
  unfold routeByMethod. rewrite Hm. change ("POST" =? "GET") with false.
  rewrite String.eqb_refl. cbn [bm_Post].
  unfold run, handleUploadPost. rewrite Hmp. unfold mbind at 1. cbn [mp_parts mp_tail].
  rewrite <- (app_nil_r parts), loop_skip by exact Hparts. reflexivity.
Qed.

Lemma C10_next_part_error_panics_witness :
  fst (run (mux ex_env (ex_upload [mkPart "note" "" "x" None]
                         (Some "multipart: NextPart: malformed MIME header line: bad header"))) ex_fs)
  = Panicked.
Proof.
  apply (C10_next_part_error_panics ex_env _ ex_fs [mkPart "note" "" "x" None]
           "multipart: NextPart: malformed MIME header line: bad header");
    try reflexivity.
  repeat constructor. simpl. discriminate.
Defined.

End Claims.

(** ** Further facts about the code *)
Module ExtraFacts.
Import Defs PathFacts HandlerFacts.

(** *** Paths *)

Lemma resolve_empty (wd : list string) : resolve wd "" = wd.
Proof. unfold resolve, clean_stack. simpl. apply rev_involutive. Qed.

Lemma Clean_nonempty (s : string) : Clean s <> "".
Proof.
  unfold Clean. destruct (s =? ""); [discriminate|].
  destruct (starts_with_slash s); [discriminate|].
  destruct (String.concat "/" _ =? "") eqn:E; [discriminate|].
  apply String.eqb_neq. exact E.
Qed.

Lemma Join_ne (a b : string) : a <> "" -> Join a b <> "".
Proof. intros Ha. rewrite Join_nonempty by exact Ha. apply Clean_nonempty. Qed.

(** [path.Clean] keeps a relative path relative. *)
Lemma Clean_rel (s : string) :
  s <> "" -> starts_with_slash s = false -> starts_with_slash (Clean s) = false.
Proof.
  intros Hs Hr. unfold Clean. apply String.eqb_neq in Hs. rewrite Hs, Hr.
  destruct (rev (clean_stack false [] s)) as [|y l] eqn:E; [reflexivity|].
  destruct (concat_valid_nonempty (y :: l)) as [Hne Hsw];
    [rewrite <- E; apply valid_rev, clean_stack_valid|discriminate|].
  apply String.eqb_neq in Hne. rewrite Hne. exact Hsw.
Qed.

Lemma Join_rel (a b : string) :
  a <> "" -> starts_with_slash a = false -> starts_with_slash (Join a b) = false.
Proof.
  intros Ha Hr. rewrite Join_nonempty by exact Ha.
  apply Clean_rel; [destruct a; [congruence|discriminate]|].
  rewrite sw_app by exact Ha. exact Hr.
Qed.

(** Joining a relative path resolves it from the first one. *)
Lemma resolve_join_rel (wd : list string) (a b : string) :
  starts_with_slash b = false -> resolve wd (Join a b) = resolve (resolve wd a) b.
Proof.
  intros Hb. destruct (String.eqb_spec a "") as [->|Ha].
  - rewrite Join_empty_l, resolve_empty.
    destruct (String.eqb_spec b "") as [->|Hb']; [reflexivity|].
    apply resolve_clean.
  - rewrite Join_nonempty, resolve_clean, resolve_app by exact Ha.
    unfold resolve at 2. rewrite Hb. reflexivity.
Qed.

(** A plain name resolves to a child. *)
Lemma resolve_name (st : list string) (n : string) :
  normal n -> nosl n -> resolve st n = (st ++ [n])%list.
Proof.
  intros [Hn1 [Hn2 Hn3]] Hs.
  assert (Hsw : starts_with_slash n = false).
  { destruct n as [|c t]; [congruence|].
    simpl. exact (nosl_no_slash_head _ c t Hs eq_refl). }
  unfold resolve, clean_stack. rewrite Hsw, Hs. simpl. rewrite cp_name by assumption.
  simpl. rewrite rev_involutive. reflexivity.
Qed.

Lemma resolve_dotdot (st : list string) : resolve st ".." = removelast st.
Proof.
  unfold resolve, clean_stack. simpl. rewrite cp_dotdot_true, removelast_rev. reflexivity.
Qed.

Lemma name_rel (n : string) : normal n -> nosl n -> starts_with_slash n = false.
Proof.
  intros [Hn1 _] Hs. destruct n as [|c t]; [congruence|].
  simpl. exact (nosl_no_slash_head _ c t Hs eq_refl).
Qed.

Lemma nav_nonempty (q : gmap string (list string)) : getQueryValueOrDefault q "p" "." <> "".
Proof.
  unfold getQueryValueOrDefault. destruct (q !! "p") as [[|v vs]|]; try discriminate.
  destruct (String.eqb_spec v ""); [discriminate|assumption].
Qed.

Lemma nav_singleton (v : string) : v <> "" -> getQueryValueOrDefault {["p" := [v]]} "p" "." = v.
Proof.
  intros Hv. unfold getQueryValueOrDefault. rewrite lookup_singleton_eq.
  apply String.eqb_neq in Hv. rewrite Hv. reflexivity.
Qed.

Lemma filepathAbs_ok (e : env) (p : string) :
  getwd_ok e = true -> exists full, filepathAbs e p = inr full.
Proof.
  intros H. unfold filepathAbs, getwd. rewrite H.
  destruct (starts_with_slash p); eauto.
Qed.

(** *** Escaping and parsing query values *)

Lemma queryEscape_cons (c : ascii) (r : string) :
  queryEscape (String c r) = (queryEscape (String c EmptyString) ++ queryEscape r)%string.
Proof.
  simpl. destruct (unreserved c); [reflexivity|].
  destruct (Ascii.eqb c " "); reflexivity.
Qed.

Lemma unescape_escape1 (c : ascii) (r : string) :
  unescape (queryEscape (String c EmptyString) ++ r) = option_map (String c) (unescape r).
Proof. destruct c as [[] [] [] [] [] [] [] []]; reflexivity. Qed.

(** [url.QueryUnescape] undoes [url.QueryEscape]. *)
Lemma unescape_queryEscape (s : string) : unescape (queryEscape s) = Some s.
Proof.
  induction s as [|c r IH]; [reflexivity|].
  rewrite queryEscape_cons, unescape_escape1, IH. reflexivity.
Qed.

Lemma contains_app (c : ascii) (a b : string) :
  contains c (a ++ b) = contains c a || contains c b.
Proof. induction a as [|d a IH]; simpl; [reflexivity|]. rewrite IH. apply orb_assoc. Qed.

Lemma escape1_plain (c d : ascii) :
  Ascii.eqb d "&" || Ascii.eqb d "=" || Ascii.eqb d ";" || Ascii.eqb d "?" = true ->
  contains d (queryEscape (String c EmptyString)) = false.
Proof.
  intros Hd.
  assert (H : forall c, contains "&" (queryEscape (String c EmptyString)) = false /\
                        contains "=" (queryEscape (String c EmptyString)) = false /\
                        contains ";" (queryEscape (String c EmptyString)) = false /\
                        contains "?" (queryEscape (String c EmptyString)) = false).
  { intros c'. destruct c' as [[] [] [] [] [] [] [] []]; repeat split; reflexivity. }
  destruct (H c) as [H1 [H2 [H3 H4]]].
  repeat (apply orb_true_iff in Hd as [Hd|Hd]);
    apply Ascii.eqb_eq in Hd; subst d; assumption.
Qed.

(** An escaped value holds no [&], [=], [;] or [?]. *)
Lemma queryEscape_plain (d : ascii) (s : string) :
  Ascii.eqb d "&" || Ascii.eqb d "=" || Ascii.eqb d ";" || Ascii.eqb d "?" = true ->
  contains d (queryEscape s) = false.
Proof.
  intros Hd. induction s as [|c r IH]; [reflexivity|].
  rewrite queryEscape_cons, contains_app, IH, escape1_plain by exact Hd. reflexivity.
Qed.

Lemma cut_absent (sep : ascii) (s : string) :
  contains sep s = false -> cut sep s = (s, EmptyString, false).
Proof.
  induction s as [|c r IH]; intros H; [reflexivity|].
  simpl in H. apply orb_false_iff in H as [H1 H2].
  simpl. rewrite Ascii.eqb_sym, H1, IH by exact H2. reflexivity.
Qed.

Lemma cut_found (sep : ascii) (a b : string) :
  contains sep a = false -> cut sep (a ++ String sep b) = (a, b, true).
Proof.
  induction a as [|c r IH]; intros H; simpl; [rewrite Ascii.eqb_refl; reflexivity|].
  simpl in H. apply orb_false_iff in H as [H1 H2].
  rewrite Ascii.eqb_sym, H1, IH by exact H2. reflexivity.
Qed.

(** The query [p=<escaped v>] parses back to [p] with the single value [v]. *)
Lemma parseQuery_p (v : string) :
  parseQuery ("p=" ++ queryEscape v) = {["p" := [v]]}.
Proof.
  unfold parseQuery. cbn [String.length parseQuery_loop].
  change (("p=" ++ queryEscape v) =? "") with false. cbv iota.
  rewrite cut_absent by (rewrite contains_app, queryEscape_plain by reflexivity; reflexivity).
  rewrite contains_app, queryEscape_plain by reflexivity.
  change (("p=" ++ queryEscape v) =? "") with false.
  change ("p=" ++ queryEscape v)%string with ("p" ++ String "=" (queryEscape v))%string.
  rewrite cut_found by reflexivity. cbv iota beta.
  change (unescape "p") with (Some "p"). cbv iota.
  rewrite unescape_queryEscape. cbv iota.
  destruct (String.length _); reflexivity.
Qed.

Lemma In_sort_by {A} (f : A -> string) (x : A) (l : list A) : In x (sort_by f l) <-> In x l.
Proof.
  assert (Hins : forall y m, In x (insert_by f y m) <-> x = y \/ In x m).
  { intros y m. induction m as [|z m IH]; simpl; [intuition congruence|].
    destruct (f y <=? f z)%string; simpl; [intuition congruence|]. rewrite IH. intuition congruence. }
  induction l as [|y l IH]; simpl; [tauto|]. rewrite Hins, IH. intuition congruence.
Qed.

Lemma last_in (l : list string) : l <> [] -> l = (removelast l ++ [List.last l ""])%list.
Proof. apply app_removelast_last. Qed.

(** A listed entry names a node directly inside the listed directory. *)
Lemma children_in (fs : fsys) (k : list string) (de : dirEntry) :
  In de (children fs k) ->
  exists k' n, fs !! k' = Some n /\ k' = (k ++ [de_name de])%list /\
    de_isDir de = match n with NDir => true | NFile _ => false end.
Proof.
  unfold children. rewrite In_sort_by. intros Hin.
  apply list_elem_of_In, list_elem_of_omap in Hin as [[k' n] [Hkv Hc]].
  apply elem_of_map_to_list in Hkv.
  unfold child_entry in Hc. destruct k' as [|a t]; [discriminate|].
  destruct (decide (removelast (a :: t) = k)) as [Hk|]; [|discriminate].
  injection Hc as <-. exists (a :: t), n. split; [exact Hkv|split; [|reflexivity]].
  cbn [de_name]. rewrite <- Hk. apply last_in. discriminate.
Qed.

Lemma children_name (fs : fsys) (k : list string) (de : dirEntry) :
  fs_canonical fs -> In de (children fs k) ->
  normal (de_name de) /\ nosl (de_name de) /\
  exists n, fs !! (k ++ [de_name de])%list = Some n /\
    de_isDir de = match n with NDir => true | NFile _ => false end.
Proof.
  intros Hfs Hin. destruct (children_in fs k de Hin) as [k' [n [Hn [-> Hd]]]].
  destruct (Hfs _ _ Hn) as [Hnorm Hnosl].
  apply Forall_app in Hnorm as [_ Hnorm]. apply Forall_app in Hnosl as [_ Hnosl].
  inversion Hnorm; inversion Hnosl; subst.
  split; [assumption|split; [assumption|]]. exists n. auto.
Qed.

Lemma requestOfURI_p (u v : string) :
  contains "?" u = false ->
  rq_method (requestOfURI (u ++ "?p=" ++ queryEscape v)) = "GET" /\
  rq_path (requestOfURI (u ++ "?p=" ++ queryEscape v)) = u /\
  rq_query (requestOfURI (u ++ "?p=" ++ queryEscape v)) = {["p" := [v]]}.
Proof.
  intros Hu. unfold requestOfURI.
  change ("?p=" ++ queryEscape v)%string with (String "?" ("p=" ++ queryEscape v)).
  rewrite cut_found by exact Hu. cbn [rq_method rq_path rq_query].
  rewrite parseQuery_p. auto.
Qed.

Lemma first_file_some (parts : list part) (p : part) :
  first_file parts = Some p ->
  exists pre post, parts = (pre ++ p :: post)%list /\ Forall not_file pre /\ formName p = "file".
Proof.
  induction parts as [|q rest IH]; simpl; [discriminate|].
  destruct (String.eqb_spec (formName q) "file") as [Hq|Hq].
  - intros [= <-]. exists [], rest. auto.
  - intros H. destruct (IH H) as [pre [post [-> [Hpre Hp]]]].
    exists (q :: pre), post. repeat split; auto.
Qed.

Lemma first_file_none (parts : list part) :
  first_file parts = None -> Forall not_file parts.
Proof.
  induction parts as [|q rest IH]; simpl; [constructor|].
  destruct (String.eqb_spec (formName q) "file"); [discriminate|].
  intros H. constructor; auto.
Qed.

Lemma mux_root (e : env) (r : request) :
  rq_method r = "GET" -> rq_path r <> "/upload" -> rq_path r <> "/download" ->
  mux e r = handleRootGet e r.
Proof.
  intros Hm H1 H2. unfold mux, routeByMethod.
  apply String.eqb_neq in H1, H2. rewrite H1, H2, Hm. reflexivity.
Qed.

Lemma mux_download (e : env) (r : request) :
  rq_method r = "GET" -> rq_path r = "/download" -> mux e r = handleDownloadGet e r.
Proof. intros Hm Hp. unfold mux, routeByMethod. rewrite Hp, Hm. reflexivity. Qed.

(** The directory a listing reads, for a relative [p]. *)
Lemma root_reads (e : env) (r : request) (fs : fsys) :
  getwd_ok e = true -> canonical (cwd e) -> rq_path r = "/" ->
  let np := getQueryValueOrDefault (rq_query r) "p" "." in
  starts_with_slash np = false ->
  exists full, filepathAbs e (Join (serveDir e) np) = inr full /\
    w_fsops (snd (run (handleRootGet e r) fs)) = [FsReadDir full] /\
    resolve (cwd e) full = resolve (resolve (cwd e) (serveDir e)) np.
Proof.
  intros Hg Hc Hp np Hnp.
  destruct (filepathAbs_ok e (Join (serveDir e) np) Hg) as [full Ha].
  exists full. split; [exact Ha|split].
  - rewrite root_run. unfold root_outcome. rewrite Hp. cbn -[filepathAbs Join].
    fold np. rewrite Ha. destruct (fs !! _) as [[c|]|]; reflexivity.
  - rewrite (filepathAbs_resolve e _ _ Hc Ha). apply resolve_join_rel. exact Hnp.
Qed.

Lemma download_opens (e : env) (r : request) (fs : fsys) :
  let np := getQueryValueOrDefault (rq_query r) "p" "." in
  starts_with_slash np = false ->
  w_fsops (snd (run (handleDownloadGet e r) fs)) = [FsOpen (Join (serveDir e) np)] /\
  resolve (cwd e) (Join (serveDir e) np) = resolve (resolve (cwd e) (serveDir e)) np.
Proof.
  intros np Hnp. split.
  - rewrite download_run. reflexivity.
  - apply resolve_join_rel. exact Hnp.
Qed.

Lemma ex_fs_canonical : fs_canonical ex_fs.
Proof.
  apply map_Forall_to_list. vm_compute.
  repeat (constructor || (intro; discriminate) || reflexivity).
Qed.

Lemma ex_env_canonical : canonical (cwd ex_env).
Proof. split; repeat constructor; cbv; try discriminate; reflexivity. Qed.

Lemma redirectFound_frame (m u : string) (w : world) :
  fst (redirectFound m u w) = Ok tt /\
  w_fs (snd (redirectFound m u w)) = w_fs w /\ w_fsops (snd (redirectFound m u w)) = w_fsops w.
Proof.
  destruct w as [fs fo ops lg]. unfold redirectFound, emit, mbind, mret.
  destruct ((m =? "GET") || (m =? "HEAD")), (m =? "GET"); simpl; auto.
Qed.

(** What [handleUploadPost] does to the file system, for any request. *)
Lemma upload_world (e : env) (r : request) (fs : fsys) :
  let w' := snd (run (handleUploadPost e r) fs) in
  match rq_multipart r with
  | inl _ => w_fs w' = fs /\ w_fsops w' = []
  | inr mp =>
      match first_file (mp_parts mp) with
      | Some p =>
          let k := resolve (cwd e) (upload_target e p) in
          w_fsops w' = [FsCreate (upload_target e p)] /\
          w_fs w' = if create_ok fs k then <[k := NFile (p_body p)]> fs else fs
      | None => w_fs w' = fs /\ w_fsops w' = []
      end
  end.
Proof.
  cbv zeta. remember (run (handleUploadPost e r) fs) as o eqn:Ho.
  unfold run, handleUploadPost in Ho.
  destruct (rq_multipart r) as [err|[parts tail]] eqn:Hmp.
  - unfold mbind at 1 in Ho. rewrite httpError_run in Ho. subst o. split; reflexivity.
  - cbn [mp_parts mp_tail] in *. unfold mbind at 1 in Ho.
    destruct (first_file parts) as [p|] eqn:Hf.
    + destruct (first_file_some _ _ Hf) as [pre [post [-> [Hpre Hp]]]].
      rewrite loop_skip in Ho by exact Hpre. cbn [upload_loop] in Ho.
      rewrite loop_step_file in Ho by exact Hp.
      destruct (create_ok fs _); [destruct (p_err p)|]; cbv iota beta in Ho;
        try (subst o; split; reflexivity).
      subst o. rewrite (proj1 (proj2 (redirectFound_frame _ _ _))),
                       (proj2 (proj2 (redirectFound_frame _ _ _))).
      split; reflexivity.
    + apply first_file_none in Hf. rewrite <- (app_nil_r parts), loop_skip in Ho by exact Hf.
      cbn [upload_loop] in Ho. destruct tail as [err|].
      * unfold loop_step, readPart, mbind, panic in Ho. subst o. split; reflexivity.
      * unfold mbind in Ho. rewrite httpError_run in Ho. subst o. split; reflexivity.
Qed.

(** *** Calls that leave the file system alone *)
Lemma fs_mret {A} (a : A) : fs_pure (mret a).
Proof. intros w x w' H. injection H as _ <-. auto. Qed.
Lemma fs_panic {A} : fs_pure (@panic A).
Proof. intros w x w' H. injection H as _ <-. auto. Qed.
Lemma fs_emit (o : wop) : fs_pure (emit o).
Proof. intros w x w' H. injection H as _ <-. auto. Qed.
Lemma fs_logm (l : logmsg) : fs_pure (logm l).
Proof. intros w x w' H. injection H as _ <-. auto. Qed.
Lemma fs_bind {A B} (m : M A) (k : A -> M B) :
  fs_pure m -> (forall a, fs_pure (k a)) -> fs_pure (mbind m k).
Proof.
  intros Hm Hk w x w' H. unfold mbind in H.
  destruct (m w) as [[a|] w1] eqn:E.
  - destruct (Hm _ _ _ E) as [H1 H2]. destruct (Hk a _ _ _ H) as [H3 H4].
    split; congruence.
  - injection H as _ <-. exact (Hm _ _ _ E).
Qed.

Create HintDb fs_pure.
#[local] Hint Resolve fs_mret fs_panic fs_emit fs_logm fs_bind : fs_pure.

Lemma fs_httpError (msg : string) (code : Z) : fs_pure (httpError msg code).
Proof. unfold httpError. repeat (apply fs_bind; intros); auto with fs_pure. Qed.
#[local] Hint Resolve fs_httpError : fs_pure.

Lemma fs_redirectFound (m u : string) : fs_pure (redirectFound m u).
Proof.
  unfold redirectFound.
  repeat (apply fs_bind; intros); try destruct (_ || _); try destruct (_ =? _); auto with fs_pure.
Qed.
#[local] Hint Resolve fs_redirectFound : fs_pure.

Lemma fs_routeByMethod (bm : ByMethod) (r : request) :
  (forall h, bm_Get bm = Some h -> fs_pure (h r)) ->
  (forall h, bm_Post bm = Some h -> fs_pure (h r)) ->
  fs_pure (routeByMethod bm r).
Proof.
  intros HG HP. unfold routeByMethod.
  destruct (rq_method r =? "GET"); [destruct (bm_Get bm) eqn:E; eauto with fs_pure|].
  destruct (rq_method r =? "POST"); [destruct (bm_Post bm) eqn:E; eauto with fs_pure|].
  auto with fs_pure.
Qed.

Lemma fs_main_loop (parts : list part) (tail : option goerror) :
  fs_pure (MainGo.upload_loop parts tail).
Proof.
  induction parts as [|q rest IH]; simpl.
  - destruct tail; unfold MainGo.loop_step, MainGo.readPart.
    + apply fs_bind; [auto with fs_pure|]. intros [ok [err|]]; [apply fs_bind; auto with fs_pure|].
      destruct ok; auto with fs_pure.
    + apply fs_bind; auto with fs_pure.
  - unfold MainGo.loop_step, MainGo.readPart. apply fs_bind.
    + destruct (negb _); [auto with fs_pure|destruct (p_err q); auto with fs_pure].
    + intros [ok [err|]]; [apply fs_bind; auto with fs_pure|]. destruct ok; auto with fs_pure.
Qed.

Lemma fs_main_mux (r : request) : fs_pure (MainGo.mux r).
Proof.
  unfold MainGo.mux. destruct (rq_path r =? "/upload");
    apply fs_routeByMethod; cbn [bm_Get bm_Post]; intros h [= <-];
    unfold MainGo.handleUploadPost, MainGo.handleRootGet, notFound.
  - destruct (rq_multipart r); apply fs_bind; auto with fs_pure.
    + apply fs_main_loop.
    + intros []; auto with fs_pure.
  - destruct (rq_path r =? "/"); auto with fs_pure.
Qed.

Lemma run_fs_pure (h : M unit) (fs : fsys) :
  fs_pure h -> w_fs (snd (run h fs)) = fs /\ w_fsops (snd (run h fs)) = [].
Proof.
  intros H. unfold run. destruct (h (mkWorld fs [] [] [])) as [x w'] eqn:E.
  exact (H _ _ _ E).
Qed.

Lemma mux_frame (e : env) (r : request) (fs : fsys) :
  (w_fs (snd (run (mux e r) fs)) = fs /\
   forall p, ~ In (FsCreate p) (w_fsops (snd (run (mux e r) fs)))) \/
  (rq_path r = "/upload" /\ rq_method r = "POST").
Proof.
  unfold mux, routeByMethod. cbn [bm_Get bm_Post].
  destruct (String.eqb_spec (rq_path r) "/upload") as [Hu|Hu].
  - destruct (rq_method r =? "GET").
    + left. unfold run, emit. split; [reflexivity|]. intros p [].
    + destruct (String.eqb_spec (rq_method r) "POST") as [Hm|Hm]; [right; auto|].
      left. unfold run, emit. split; [reflexivity|]. intros p [].
  - left. destruct (rq_path r =? "/download"); destruct (rq_method r =? "GET");
      try destruct (rq_method r =? "POST");
      try (unfold run, emit; split; [reflexivity|]; intros p []).
    all: first
      [ rewrite download_run; split; [reflexivity|]; intros p [H|[]]; discriminate
      | rewrite root_run; unfold root_outcome;
        destruct (rq_path r =? "/"); [|split; [reflexivity|intros p []]];
        destruct (filepathAbs e _); [split; [reflexivity|intros p []]|];
        destruct (fs !! _) as [[c|]|]; (split; [reflexivity|intros p [H|[]]; discriminate]) ].
Qed.

Lemma main_loop_skip (pre rest : list part) (tail : option goerror) (w : world) :
  Forall not_file pre ->
  MainGo.upload_loop (pre ++ rest) tail w = MainGo.upload_loop rest tail w.
Proof.
  intros Hpre. induction Hpre as [|q pre Hq _ IH]; [reflexivity|].
  simpl. unfold MainGo.loop_step, mbind, MainGo.readPart.
  apply String.eqb_neq in Hq. rewrite Hq. simpl. exact IH.
Qed.

Lemma redirectFound_ops (m u : string) (w1 w2 : world) :
  w_ops w1 = w_ops w2 ->
  fst (redirectFound m u w1) = fst (redirectFound m u w2) /\
  w_ops (snd (redirectFound m u w1)) = w_ops (snd (redirectFound m u w2)).
Proof.
  destruct w1 as [f1 o1 p1 l1], w2 as [f2 o2 p2 l2]. cbn [w_ops]. intros ->. unfold redirectFound, emit, mbind, mret.
  destruct ((m =? "GET") || (m =? "HEAD")), (m =? "GET"); simpl; auto.
Qed.

End ExtraFacts.

(** ** Further properties of the handlers *)
Module Extras.
Import Defs PathFacts HandlerFacts ExtraFacts.

(** X1: the links [addQueryToPath] builds for its two call sites, followed
    with a GET, arrive at the same path with the query [p] holding exactly
    the value that was put in. *)
Theorem X1_addq_roundtrip (v : string) :
  (match addQueryToPath "/" {["p" := v]} with
   | inr u => rq_path (requestOfURI u) = "/" /\ rq_query (requestOfURI u) = {["p" := [v]]}
   | inl _ => False
   end) /\
  (match addQueryToPath "/download" {["p" := v]} with
   | inr u => rq_path (requestOfURI u) = "/download" /\ rq_query (requestOfURI u) = {["p" := [v]]}
   | inl _ => False
   end).
Proof.
  rewrite !addQueryToPath_p by reflexivity. split.
  - destruct (requestOfURI_p "/" v eq_refl) as [_ H]. exact H.
  - destruct (requestOfURI_p "/download" v eq_refl) as [_ H]. exact H.
Qed.

(** X2: every entry of a listing page (served for a relative [p]) leads,
    through the mux, to the path of the entry it shows: ["../"] lists the
    parent of the listed directory, a ["<DIR>"] entry [n/] lists the path
    [n] inside it, and any other entry [n] is downloaded from the path [n]
    inside it.  The statement is about the paths handed to the [os]
    package, not about what kind of node is found there. *)
Theorem X2_listing_links (e : env) (r : request) (fs : fsys) (full : string) (files : list fileEntry) (fe : fileEntry) :
  getwd_ok e = true -> canonical (cwd e) -> fs_canonical fs ->
  starts_with_slash (getQueryValueOrDefault (rq_query r) "p" ".") = false ->
  w_ops (snd (run (handleRootGet e r) fs)) = [Write (Page full files)] ->
  In fe files ->
  let k := resolve (cwd e) full in
  let w' := snd (run (mux e (requestOfURI (fe_URL fe))) fs) in
  (fe_Type fe = "<DIR>" /\
   exists full', w_fsops w' = [FsReadDir full'] /\
     ((fe_Name fe = "../" /\ resolve (cwd e) full' = removelast k) \/
      (exists n, fe_Name fe = n ++ "/" /\ resolve (cwd e) full' = (k ++ [n])%list))) \/
  (fe_Type fe = "" /\
   exists p', w_fsops w' = [FsOpen p'] /\ resolve (cwd e) p' = (k ++ [fe_Name fe])%list).
Proof.
  intros Hg Hc Hfs Hnp Hops Hin k w'.
  set (np := getQueryValueOrDefault (rq_query r) "p" ".") in *.
  assert (Hne : np <> "") by apply nav_nonempty.
  rewrite root_run in Hops. unfold root_outcome in Hops. fold np in Hops.
  destruct (String.eqb_spec (rq_path r) "/") as [Hp|Hp]; [|discriminate].
  destruct (filepathAbs e (Join (serveDir e) np)) as [err|full0] eqn:Ea; [discriminate|].
  destruct (fs !! resolve (cwd e) full0) as [[c|]|] eqn:Ed; try discriminate.
  cbn [snd w_ops] in Hops. injection Hops as <- <-.
  assert (Hk : k = resolve (resolve (cwd e) (serveDir e)) np).
  { unfold k. rewrite (filepathAbs_resolve e _ _ Hc Ea). apply resolve_join_rel. exact Hnp. }
  destruct Hin as [<-|Hin].
  - (* the parent entry *)
    left. split; [reflexivity|]. unfold w'. clear w'. unfold spec_parent_entry. cbn [fe_URL fe_Name].
    change ("/?p=" ++ ?x)%string with ("/" ++ "?p=" ++ x)%string.
    destruct (requestOfURI_p "/" (Join np "..") eq_refl) as [Hm' [Hp' Hq']].
    set (r' := requestOfURI _) in *.
    rewrite mux_root by (rewrite ?Hm', ?Hp'; first [reflexivity|discriminate]).
    assert (Hnav : getQueryValueOrDefault (rq_query r') "p" "." = Join np "..").
    { rewrite Hq'. apply nav_singleton, Join_ne, Hne. }
    destruct (root_reads e r' fs Hg Hc Hp') as [full' [_ [Hops' Hres]]].
    { rewrite Hnav. apply Join_rel; [exact Hne|exact Hnp]. }
    exists full'. split; [exact Hops'|]. left. split; [reflexivity|].
    rewrite Hres, Hnav, resolve_join_rel by reflexivity.
    rewrite resolve_dotdot, Hk. reflexivity.
  - apply in_map_iff in Hin as [de [<- Hde]].
    destruct (children_name fs _ de Hfs Hde) as [Hnorm [Hnosl _]].
    assert (Hrel : starts_with_slash (Join np (de_name de)) = false)
      by (apply Join_rel; [exact Hne|exact Hnp]).
    assert (Hnav : forall q, q = {["p" := [Join np (de_name de)]]} ->
              getQueryValueOrDefault q "p" "." = Join np (de_name de)).
    { intros q ->. apply nav_singleton, Join_ne, Hne. }
    assert (Hres : resolve (resolve (cwd e) (serveDir e)) (Join np (de_name de)) = (k ++ [de_name de])%list).
    { rewrite resolve_join_rel by exact (name_rel _ Hnorm Hnosl).
      rewrite resolve_name by assumption. rewrite Hk. reflexivity. }
    unfold w'. clear w'. unfold spec_child_entry. destruct (de_isDir de) eqn:Eisdir.
    + left. cbn [fe_URL fe_Name fe_Type]. split; [reflexivity|].
      change ("/?p=" ++ ?x)%string with ("/" ++ "?p=" ++ x)%string.
      destruct (requestOfURI_p "/" (Join np (de_name de)) eq_refl) as [Hm' [Hp' Hq']].
      set (r' := requestOfURI _) in *.
      rewrite mux_root by (rewrite ?Hm', ?Hp'; first [reflexivity|discriminate]).
      destruct (root_reads e r' fs Hg Hc Hp') as [full' [_ [Hops' Hres']]].
      { rewrite (Hnav _ Hq'). exact Hrel. }
      exists full'. split; [exact Hops'|]. right. exists (de_name de).
      split; [reflexivity|]. rewrite Hres', (Hnav _ Hq'), Hres. reflexivity.
    + right. cbn [fe_URL fe_Name fe_Type]. split; [reflexivity|].
      change ("/download?p=" ++ ?x)%string with ("/download" ++ "?p=" ++ x)%string.
      destruct (requestOfURI_p "/download" (Join np (de_name de)) eq_refl) as [Hm' [Hp' Hq']].
      set (r' := requestOfURI _) in *.
      rewrite mux_download by assumption.
      destruct (download_opens e r' fs) as [Hops' Hres'].
      { rewrite (Hnav _ Hq'). exact Hrel. }
      eexists. split; [exact Hops'|]. rewrite Hres', (Hnav _ Hq'), Hres. reflexivity.
Qed.

Lemma X2_listing_links_witness :
  let fe := mkFileEntry "/?p=sub" "sub/" "<DIR>" in
  let k := resolve (cwd ex_env) "/srv" in
  let w' := snd (run (mux ex_env (requestOfURI (fe_URL fe))) ex_fs) in
  (fe_Type fe = "<DIR>" /\
   exists full', w_fsops w' = [FsReadDir full'] /\
     ((fe_Name fe = "../" /\ resolve (cwd ex_env) full' = removelast k) \/
      (exists n, fe_Name fe = n ++ "/" /\ resolve (cwd ex_env) full' = (k ++ [n])%list))) \/
  (fe_Type fe = "" /\
   exists p', w_fsops w' = [FsOpen p'] /\ resolve (cwd ex_env) p' = (k ++ [fe_Name fe])%list).
Proof.
  apply (X2_listing_links ex_env (ex_get "/" ".") ex_fs "/srv"
           [mkFileEntry "/?p=.." "../" "<DIR>"; mkFileEntry "/download?p=b.txt" "b.txt" "";
            mkFileEntry "/?p=sub" "sub/" "<DIR>"]).
  - reflexivity.
  - exact ex_env_canonical.
  - exact ex_fs_canonical.
  - reflexivity.
  - vm_compute. reflexivity.
  - simpl. auto.
Defined.

(** X3: the listing is not confined to the served directory: [p=..] reads
    the directory above it. *)
Theorem X3_listing_escapes (e : env) (r : request) (fs : fsys) (vs : list string) :
  getwd_ok e = true -> canonical (cwd e) -> rq_path r = "/" ->
  rq_query r !! "p" = Some (".." :: vs) ->
  exists full, w_fsops (snd (run (handleRootGet e r) fs)) = [FsReadDir full] /\
    resolve (cwd e) full = removelast (resolve (cwd e) (serveDir e)).
Proof.
  intros Hg Hc Hp Hq.
  assert (Hnav : getQueryValueOrDefault (rq_query r) "p" "." = "..").
  { unfold getQueryValueOrDefault. rewrite Hq. reflexivity. }
  destruct (root_reads e r fs Hg Hc Hp) as [full [_ [Hops Hres]]]; [rewrite Hnav; reflexivity|].
  exists full. split; [exact Hops|]. rewrite Hres, Hnav. apply resolve_dotdot.
Qed.

Lemma X3_listing_escapes_witness :
  exists full, w_fsops (snd (run (handleRootGet ex_env (ex_get "/" "..")) ex_fs)) = [FsReadDir full] /\
    resolve (cwd ex_env) full = removelast (resolve (cwd ex_env) (serveDir ex_env)).
Proof.
  apply (X3_listing_escapes ex_env (ex_get "/" "..") ex_fs []);
    [reflexivity|exact ex_env_canonical|reflexivity|vm_compute; reflexivity].
Defined.

(** X4: a download is not confined to the served directory either:
    [p=../n] opens the entry [n] next to it. *)
Theorem X4_download_escapes (e : env) (r : request) (fs : fsys) (n : string) (vs : list string) :
  normal n -> nosl n ->
  rq_query r !! "p" = Some (("../" ++ n) :: vs) ->
  exists p', w_fsops (snd (run (handleDownloadGet e r) fs)) = [FsOpen p'] /\
    resolve (cwd e) p' = (removelast (resolve (cwd e) (serveDir e)) ++ [n])%list.
Proof.
  intros Hn Hs Hq.
  assert (Hnav : getQueryValueOrDefault (rq_query r) "p" "." = "../" ++ n).
  { unfold getQueryValueOrDefault. rewrite Hq. reflexivity. }
  destruct (download_opens e r fs) as [Hops Hres]; [rewrite Hnav; reflexivity|].
  eexists. split; [exact Hops|]. rewrite Hres, Hnav.
  change ("../" ++ n)%string with (".." ++ String slash n)%string.
  rewrite resolve_app by discriminate. rewrite resolve_dotdot, Hs. simpl.
  destruct Hn as [Hn1 [Hn2 Hn3]]. rewrite cp_name by assumption.
  simpl. rewrite rev_involutive. reflexivity.
Qed.

Lemma X4_download_escapes_witness :
  exists p', w_fsops (snd (run (handleDownloadGet ex_env (ex_get "/download" "../home")) ex_fs)) = [FsOpen p'] /\
    resolve (cwd ex_env) p' = (removelast (resolve (cwd ex_env) (serveDir ex_env)) ++ ["home"])%list.
Proof.
  apply (X4_download_escapes ex_env (ex_get "/download" "../home") ex_fs "home" []).
  - split; [discriminate|split; discriminate].
  - reflexivity.
  - vm_compute. reflexivity.
Defined.

(** X5: the answer of [handleRootGet]: 404 with the text of
    [http.NotFound] off the path [/]; 500 with a newline when the joined
    path cannot be made absolute or is not a readable directory; otherwise
    200 with the page of the directory: its parent entry, then one entry per
    child in [os.ReadDir] order. *)
Theorem X5_root_status (e : env) (r : request) (fs : fsys) :
  let np := getQueryValueOrDefault (rq_query r) "p" "." in
  let w := wire_of (w_ops (snd (run (handleRootGet e r) fs))) in
  (status w, body w) =
  if rq_path r =? "/" then
    match filepathAbs e (Join (serveDir e) np) with
    | inl _ => (500%Z, [Bytes nl])
    | inr full =>
        match fs !! resolve (cwd e) full with
        | Some NDir =>
            (200%Z, [Page full (spec_parent_entry np ::
                                map (spec_child_entry np) (children fs (resolve (cwd e) full)))])
        | _ => (500%Z, [Bytes nl])
        end
    end
  else (404%Z, [Bytes ("404 page not found" ++ nl)]).
Proof.
  cbv zeta. rewrite root_run. unfold root_outcome.
  destruct (rq_path r =? "/");
    [|cbn [snd w_ops]; destruct (error_ops_wire "404 page not found" 404) as [-> ->]; reflexivity].
  destruct (filepathAbs e _);
    [cbn [snd w_ops]; destruct (error_ops_wire "" 500) as [-> ->]; reflexivity|].
  destruct (fs !! _) as [[c|]|]; cbn [snd w_ops];
    try (destruct (error_ops_wire "" 500) as [-> ->]; reflexivity).
  reflexivity.
Qed.

(** X6: only a POST to [/upload] can change the file system, and no other
    request ever creates a file. *)
Theorem X6_mux_frame (e : env) (r : request) (fs : fsys) :
  (w_fs (snd (run (mux e r) fs)) = fs /\
   forall p, ~ In (FsCreate p) (w_fsops (snd (run (mux e r) fs)))) \/
  (rq_path r = "/upload" /\ rq_method r = "POST").
Proof. exact (mux_frame e r fs). Qed.

(** X7: what [handleUploadPost] does to the file system: without a
    multipart body or a ["file"] part it touches nothing; otherwise it
    creates the target of the first ["file"] part and, when the creation
    succeeds, that file holds the bytes read from the part, whatever the
    read error and whatever follows. *)
Theorem X7_upload_effect (e : env) (r : request) (fs : fsys) :
  let w' := snd (run (handleUploadPost e r) fs) in
  match rq_multipart r with
  | inl _ => w_fs w' = fs /\ w_fsops w' = []
  | inr mp =>
      match first_file (mp_parts mp) with
      | Some p =>
          let k := resolve (cwd e) (upload_target e p) in
          w_fsops w' = [FsCreate (upload_target e p)] /\
          w_fs w' = if create_ok fs k then <[k := NFile (p_body p)]> fs else fs
      | None => w_fs w' = fs /\ w_fsops w' = []
      end
  end.
Proof. exact (upload_world e r fs). Qed.

(** X9: when reading the uploaded part fails, the answer is 400 but the
    created file keeps the bytes read before the error. *)
Theorem X9_read_error_partial (e : env) (r : request) (fs : fsys) (pre post : list part) (p : part)
    (tail : option goerror) (err : goerror) :
  rq_method r = "POST" ->
  rq_multipart r = inr (mkMP (pre ++ p :: post) tail) ->
  Forall not_file pre -> formName p = "file" ->
  let k := resolve (cwd e) (upload_target e p) in
  create_ok fs k = true -> p_err p = Some err ->
  status (wire_of (w_ops (snd (run (handleUploadPost e r) fs)))) = 400%Z /\
  w_fs (snd (run (handleUploadPost e r) fs)) !! k = Some (NFile (p_body p)).
Proof.
  intros Hm Hmp Hpre Hp k Hok Herr.
  rewrite (upload_run_file e r fs pre post p tail Hm Hmp Hpre Hp). cbv zeta. fold k.
  rewrite Hok, Herr. cbn [snd w_ops w_fs]. split.
  - apply error_ops_wire.
  - apply lookup_insert_eq.
Qed.

Lemma X9_read_error_partial_witness :
  let r := ex_upload [mkPart "file" "h.txt" "hel" (Some "unexpected EOF")] None in
  status (wire_of (w_ops (snd (run (handleUploadPost ex_env r) ex_fs)))) = 400%Z /\
  w_fs (snd (run (handleUploadPost ex_env r) ex_fs)) !!
    resolve (cwd ex_env) (upload_target ex_env (mkPart "file" "h.txt" "hel" (Some "unexpected EOF")))
  = Some (NFile "hel").
Proof.
  apply (X9_read_error_partial ex_env _ ex_fs [] [] (mkPart "file" "h.txt" "hel" (Some "unexpected EOF"))
           None "unexpected EOF"); try reflexivity.
  all: first [constructor | vm_compute; reflexivity].
Defined.

(** X10: on a clean path (one [http.ServeMux] does not redirect: rooted
    and unchanged by [path.Clean]), the minimal server (src/main.go)
    answers a GET on [/] with its fixed page, on [/upload] with 405 and on
    any other path, [/download] included, with 404. *)
Theorem X10_main_get_routes (r : request) (fs : fsys) :
  starts_with_slash (rq_path r) = true -> Clean (rq_path r) = rq_path r ->
  rq_method r = "GET" ->
  let o := run (MainGo.mux r) fs in
  let w := wire_of (w_ops (snd o)) in
  fst o = Ok tt /\
  (status w, body w) =
    (if rq_path r =? "/upload" then (405%Z, [])
     else if rq_path r =? "/" then (200%Z, [Bytes MainGo.tmplRoot])
     else (404%Z, [Bytes ("404 page not found" ++ nl)])).
Proof.
  intros _ _ Hm. cbv zeta. unfold MainGo.mux, routeByMethod. rewrite Hm. cbn [bm_Get].
  rewrite String.eqb_refl.
  destruct (rq_path r =? "/upload"); [split; reflexivity|].
  unfold MainGo.handleRootGet. destruct (rq_path r =? "/"); [split; reflexivity|].
  unfold run, notFound. rewrite httpError_run. split; [reflexivity|].
  cbn [snd w_ops app]. destruct (error_ops_wire "404 page not found" 404) as [-> ->]. reflexivity.
Qed.

Lemma X10_main_get_routes_witness :
  let o := run (MainGo.mux (ex_get "/download" "b.txt")) ex_fs in
  let w := wire_of (w_ops (snd o)) in
  fst o = Ok tt /\
  (status w, body w) =
    (if "/download" =? "/upload" then (405%Z, [])
     else if "/download" =? "/" then (200%Z, [Bytes MainGo.tmplRoot])
     else (404%Z, [Bytes ("404 page not found" ++ nl)])).
Proof.
  apply (X10_main_get_routes (ex_get "/download" "b.txt") ex_fs); vm_compute; reflexivity.
Defined.

(** X11: the minimal server never touches the file system. *)
Theorem X11_main_no_fs (r : request) (fs : fsys) :
  w_fs (snd (run (MainGo.mux r) fs)) = fs /\ w_fsops (snd (run (MainGo.mux r) fs)) = [].
Proof. apply run_fs_pure, fs_main_mux. Qed.

(** X12: when creating the file succeeds, the full server answers an
    upload as the minimal one does (same status, headers and body, same
    panic). *)
Theorem X12_main_upload_same_answer (e : env) (r : request) (fs : fsys) :
  match rq_multipart r with
  | inr mp =>
      match first_file (mp_parts mp) with
      | Some p => create_ok fs (resolve (cwd e) (upload_target e p)) = true
      | None => True
      end
  | inl _ => True
  end ->
  fst (run (handleUploadPost e r) fs) = fst (run (MainGo.handleUploadPost r) fs) /\
  w_ops (snd (run (handleUploadPost e r) fs)) = w_ops (snd (run (MainGo.handleUploadPost r) fs)).
Proof.
  intros Hok.
  remember (run (handleUploadPost e r) fs) as o1 eqn:Ho1.
  remember (run (MainGo.handleUploadPost r) fs) as o2 eqn:Ho2.
  unfold run, handleUploadPost in Ho1. unfold run, MainGo.handleUploadPost in Ho2.
  destruct (rq_multipart r) as [err|[parts tail]].
  - unfold mbind at 1 in Ho1. unfold mbind at 1 in Ho2.
    rewrite httpError_run in Ho1, Ho2. subst. split; reflexivity.
  - cbn [mp_parts mp_tail] in *. unfold mbind at 1 in Ho1. unfold mbind at 1 in Ho2.
    destruct (first_file parts) as [p|] eqn:Hf.
    + destruct (first_file_some _ _ Hf) as [pre [post [-> [Hpre Hp]]]].
      rewrite loop_skip in Ho1 by exact Hpre. rewrite main_loop_skip in Ho2 by exact Hpre.
      cbn [upload_loop MainGo.upload_loop] in Ho1, Ho2.
      rewrite loop_step_file in Ho1 by exact Hp. rewrite Hok in Ho1.
      unfold MainGo.loop_step, MainGo.readPart, mbind at 1 in Ho2.
      rewrite Hp, String.eqb_refl in Ho2. cbn [negb] in Ho2.
      destruct (p_err p); cbv beta iota zeta delta [mret mbind] in Ho1, Ho2.
      * rewrite httpError_run in Ho2. cbv beta iota zeta in Ho2. subst. split; reflexivity.
      * subst. apply redirectFound_ops. reflexivity.
    + apply first_file_none in Hf.
      rewrite <- (app_nil_r parts), loop_skip in Ho1 by exact Hf.
      rewrite <- (app_nil_r parts), main_loop_skip in Ho2 by exact Hf.
      cbn [upload_loop MainGo.upload_loop] in Ho1, Ho2. destruct tail as [err|].
      * unfold loop_step, readPart, MainGo.loop_step, MainGo.readPart, mbind, panic in Ho1, Ho2.
        subst. split; reflexivity.
      * unfold mbind in Ho1, Ho2. rewrite httpError_run in Ho1, Ho2. subst. split; reflexivity.
Qed.

Lemma X12_main_upload_same_answer_witness :
  let r := ex_upload [mkPart "note" "" "x" None; mkPart "file" "h.txt" "hello" None] None in
  fst (run (handleUploadPost ex_env r) ex_fs) = fst (run (MainGo.handleUploadPost r) ex_fs) /\
  w_ops (snd (run (handleUploadPost ex_env r) ex_fs)) = w_ops (snd (run (MainGo.handleUploadPost r) ex_fs)).
Proof. apply X12_main_upload_same_answer. vm_compute. reflexivity. Defined.

End Extras.
